(** * fetch_aircraft_specs: extraction and normalisation engine

    A shallow embedding of [backend/scripts/fetch_aircraft_specs.py].

    - Python [str] values are [string]s; one character is one code point
      below 256 (Latin-1), which covers the non-breaking space [\xa0]
      that [clean_text] rewrites.
    - Python [float] is IEEE binary64, modelled by [spec_float] with the
      Standard Library's round-to-nearest-even operations at precision 53
      and maximal exponent 1024.
    - Python exceptions are the [Raise] outcome of [result].
    - [dict]s are [gmap]s keyed by strings.
    - The regular expressions of the script are values of [regex], run by
      a backtracking matcher with the priorities of Python's [re]. *)

From Stdlib Require Import ZArith Ascii String List Bool Lia.
From Stdlib Require Import Floats.SpecFloat Sorting.Sorted Sorting.Permutation.
From stdpp Require Import base option strings list gmap.

Local Open Scope string_scope.
Local Open Scope Z_scope.

(** ** Exceptions *)

(** The exceptions the script ends with; [HTTPError] stands for the
    transport errors of the fetch, [XMLSyntaxError] is the HTML parser's. *)
Inductive exn : Type :=
| RuntimeError
| ValueError
| OverflowError
| KeyError
| IndexError
| HTTPError
| XMLSyntaxError.

Inductive result (A : Type) : Type :=
| Ok (a : A)
| Raise (e : exn).
Arguments Ok {A} a.
Arguments Raise {A} e.

(** A raised exception ends the computation it occurs in. *)
Definition bind {A B : Type} (m : result A) (f : A -> result B) : result B :=
  match m with
  | Ok a => f a
  | Raise e => Raise e
  end.

Notation "'let*' x ':=' m 'in' k" := (bind m (fun x => k))
  (at level 10, x pattern, m at level 100, k at level 200).

Definition raises {A : Type} (r : result A) : Prop :=
  match r with
  | Ok _ => False
  | Raise _ => True
  end.

(** the value of a computation that went through, [d] when it raised *)
Definition value_or {A : Type} (d : A) (r : result A) : A :=
  match r with
  | Ok a => a
  | Raise _ => d
  end.

(** ** Characters and strings *)

Module Str.

Definition code (c : ascii) : N := N_of_ascii c.

Definition is_digit (c : ascii) : bool :=
  (48 <=? code c)%N && (code c <=? 57)%N.

(** [str.isspace] and the [\s] class on code points below 256. *)
Definition is_space (c : ascii) : bool :=
  let n := code c in
  ((9 <=? n)%N && (n <=? 13)%N) || ((28 <=? n)%N && (n <=? 32)%N)
  || (n =? 133)%N || (n =? 160)%N.

(** [str.lower] on one code point below 256. *)
Definition lower_char (c : ascii) : ascii :=
  let n := code c in
  if ((65 <=? n)%N && (n <=? 90)%N)
     || ((192 <=? n)%N && (n <=? 222)%N && negb (n =? 215)%N)
  then ascii_of_N (n + 32) else c.

Fixpoint lower (s : string) : string :=
  match s with
  | EmptyString => EmptyString
  | String c s' => String (lower_char c) (lower s')
  end.

Fixpoint starts_with (p s : string) : bool :=
  match p, s with
  | EmptyString, _ => true
  | String a p', String b s' => Ascii.eqb a b && starts_with p' s'
  | String _ _, EmptyString => false
  end.

(** [needle in hay] *)
Fixpoint contains (hay needle : string) : bool :=
  starts_with needle hay ||
  match hay with
  | EmptyString => false
  | String _ hay' => contains hay' needle
  end.

Fixpoint map_char (f : ascii -> ascii) (s : string) : string :=
  match s with
  | EmptyString => EmptyString
  | String c s' => String (f c) (map_char f s')
  end.

Fixpoint remove_char (x : ascii) (s : string) : string :=
  match s with
  | EmptyString => EmptyString
  | String c s' =>
      if Ascii.eqb c x then remove_char x s' else String c (remove_char x s')
  end.

Fixpoint lstrip (s : string) : string :=
  match s with
  | EmptyString => EmptyString
  | String c s' => if is_space c then lstrip s' else s
  end.

Fixpoint rstrip (s : string) : string :=
  match s with
  | EmptyString => EmptyString
  | String c s' =>
      match rstrip s' with
      | EmptyString => if is_space c then EmptyString else String c EmptyString
      | r => String c r
      end
  end.

Definition strip (s : string) : string := rstrip (lstrip s).

Definition is_empty (s : string) : bool :=
  match s with
  | EmptyString => true
  | String _ _ => false
  end.

Fixpoint take (n : nat) (s : string) : string :=
  match n, s with
  | S n', String c s' => String c (take n' s')
  | _, _ => EmptyString
  end.

End Str.

(** ** Regular expressions

    The fragment of Python's [re] syntax the script uses.  Repetition is
    only ever applied to a one-character class, so [Star] takes a class. *)

Module Re.

Inductive regex : Type :=
| Eps
| Chr (p : ascii -> bool)
| Star (p : ascii -> bool)
| Seq (r1 r2 : regex)
| Alt (r1 r2 : regex)
| Grp (r : regex)
| NotAhead (p : ascii -> bool).

Definition Plus (p : ascii -> bool) : regex := Seq (Chr p) (Star p).
Definition Opt (r : regex) : regex := Alt r Eps.

Definition lit (c : ascii) : ascii -> bool := Ascii.eqb c.
(** a literal letter under [re.IGNORECASE] *)
Definition liti (c : ascii) : ascii -> bool :=
  fun x => Ascii.eqb (Str.lower_char x) (Str.lower_char c).

Fixpoint word (mk : ascii -> ascii -> bool) (w : string) : regex :=
  match w with
  | EmptyString => Eps
  | String c EmptyString => Chr (mk c)
  | String c w' => Seq (Chr (mk c)) (word mk w')
  end.

Section Matcher.
Context {A : Type}.

(** greedy [p*]: take as many characters as possible, give one back at
    a time while the continuation fails *)
Fixpoint star (p : ascii -> bool) (s : string) (k : string -> option A)
  : option A :=
  match s with
  | String c s' =>
      if p c then
        match star p s' k with
        | Some x => Some x
        | None => k s
        end
      else k s
  | EmptyString => k s
  end.

(** [run r s cap k]: match [r] at the start of [s]; [cap] is the text
    of group 1 so far; [k] receives the rest of the input and the
    capture, and its failure makes the matcher backtrack. *)
Fixpoint run (r : regex) (s : string) (cap : option string)
    (k : string -> option string -> option A) : option A :=
  match r with
  | Eps => k s cap
  | Chr p =>
      match s with
      | String c s' => if p c then k s' cap else None
      | EmptyString => None
      end
  | Star p => star p s (fun s' => k s' cap)
  | Seq r1 r2 => run r1 s cap (fun s' cap' => run r2 s' cap' k)
  | Alt r1 r2 =>
      match run r1 s cap k with
      | Some x => Some x
      | None => run r2 s cap k
      end
  | Grp r1 =>
      run r1 s cap (fun s' _ =>
        k s' (Some (Str.take (String.length s - String.length s') s)))
  | NotAhead p =>
      match s with
      | String c _ => if p c then None else k s cap
      | EmptyString => k s cap
      end
  end.
End Matcher.

(** [re.match]: the rest of the input after the match and group 1 *)
Definition match_at (r : regex) (s : string) : option (string * option string) :=
  run r s None (fun s' cap => Some (s', cap)).

(** [re.search(r, s)], as [m.group(1)] of the leftmost match *)
Fixpoint search (r : regex) (s : string) : option string :=
  match match_at r s with
  | Some (_, cap) => Some (default EmptyString cap)
  | None =>
      match s with
      | String _ s' => search r s'
      | EmptyString => None
      end
  end.

(** [re.sub(r, "", s)]: [skip] counts the characters of the current
    match still to be dropped *)
Fixpoint delete_all (r : regex) (s : string) (skip : nat) : string :=
  match s with
  | EmptyString => EmptyString
  | String c s' =>
      match skip with
      | S n => delete_all r s' n
      | O =>
          match match_at r s with
          | Some (rest, _) =>
              match (String.length s - String.length rest)%nat with
              | S n => delete_all r s' n
              | O => String c (delete_all r s' O)
              end
          | None => String c (delete_all r s' O)
          end
      end
  end.

End Re.

(** ** Floating point: Python [float] as IEEE binary64 *)

Module Float.

Definition float : Type := spec_float.

Definition prec : Z := 53.
Definition emax : Z := 1024.

Definition zero : float := S754_zero false.
Definition mul : float -> float -> float := SFmul prec emax.
Definition eqb : float -> float -> bool := SFeqb.
Definition leb : float -> float -> bool := SFleb.

(** truth value of a float: [bool(x)], false exactly for [0.0] and [-0.0] *)
Definition truthy (x : float) : bool := negb (eqb x zero).

(** the binary64 nearest to the integer [z] *)
Definition of_Z (z : Z) : float := binary_normalize prec emax z 0 false.

(** the binary64 nearest to [n / 10^k], for [0 <= n] *)
Definition of_decimal (n : Z) (k : nat) : float :=
  match n with
  | Zpos p =>
      SFdiv prec emax (S754_finite false p 0)
            (S754_finite false (Z.to_pos (10 ^ Z.of_nat k)) 0)
  | _ => zero
  end.

Definition is_infinite (x : float) : bool :=
  match x with
  | S754_infinity _ => true
  | _ => false
  end.

(** [float(n)] for an [int]: an integer beyond the binary64 range raises *)
Definition of_int (z : Z) : result float :=
  let x := of_Z z in
  if is_infinite x then Raise OverflowError else Ok x.

(** [int(x)] for a [float]: truncation towards zero *)
Definition to_int (x : float) : result Z :=
  match x with
  | S754_zero _ => Ok 0
  | S754_finite s m e =>
      let a := if 0 <=? e then Zpos m * 2 ^ e else Zpos m / 2 ^ (- e) in
      Ok (if s then - a else a)
  | S754_infinity _ => Raise OverflowError
  | S754_nan => Raise ValueError
  end.

Definition round_half_even (n d : Z) : Z :=
  let q := n / d in
  match (2 * (n mod d)) ?= d with
  | Lt => q
  | Gt => q + 1
  | Eq => if Z.even q then q else q + 1
  end.

(** [round(x, nd)]: the exact value of [x] rounded half-even to [nd]
    decimal places, then converted back to the nearest binary64 *)
Definition round (x : float) (nd : nat) : float :=
  match x with
  | S754_finite s m e =>
      let p := 10 ^ Z.of_nat nd in
      let n := if 0 <=? e then Zpos m * 2 ^ e * p
               else round_half_even (Zpos m * p) (2 ^ (- e)) in
      match n with
      | Zpos n' => SFdiv prec emax (S754_finite s n' 0)
                         (S754_finite false (Z.to_pos p) 0)
      | _ => S754_zero s
      end
  | _ => x
  end.

(** Decimal numerals.  [scan s m k dot nd] reads digits and at most one
    point: [m] is the integer read so far without the point, [k] the
    number of digits after the point, [nd] the number of digits. *)
Fixpoint scan (s : string) (m : Z) (k : nat) (dot : bool) (nd : nat)
  : option (Z * nat) :=
  match s with
  | EmptyString => match nd with O => None | S _ => Some (m, k) end
  | String c s' =>
      if Str.is_digit c then
        scan s' (10 * m + (Z.of_N (Str.code c) - 48))
             (if dot then S k else k) dot (S nd)
      else if Ascii.eqb c "."%char then
        if dot then None else scan s' m k true nd
      else None
  end.

(** [float(s)] for the strings the script converts: the regular
    expressions only capture digits, commas and points, and the commas are
    removed first.  Such a string is a numeral when it has a digit and at
    most one point; anything else is a [ValueError].  A numeral too large
    for binary64 converts to infinity without an exception. *)
Definition of_str (s : string) : result float :=
  match scan s 0 0 false 0 with
  | Some (m, k) => Ok (of_decimal m k)
  | None => Raise ValueError
  end.

End Float.

Abbreviation float := Float.float.

(** ** Unit parsers *)

Definition clean_text (value : string) : string :=
  let footnote :=
    Re.Seq (Re.Chr (Re.lit "["))
           (Re.Seq (Re.Star (fun c => negb (Ascii.eqb c "]")))
                   (Re.Chr (Re.lit "]"))) in
  let value := Re.delete_all footnote value 0 in
  let value :=
    Str.map_char (fun c => if Ascii.eqb c (ascii_of_N 160) then " "%char else c)
                 value in
  Str.strip value.

Module Pat.
Import Re.

Definition comma (c : ascii) : bool := Ascii.eqb c ",".
Definition point (c : ascii) : bool := Ascii.eqb c ".".

(** a digit, then digits and commas: the captured number of
    [parse_number], [parse_speed] and [parse_distance] *)
Definition int_group : regex :=
  Grp (Seq (Chr Str.is_digit) (Star (fun c => Str.is_digit c || comma c))).
(** a digit, then digits, commas and points: the captured number of the
    other parsers *)
Definition dec_group : regex :=
  Grp (Seq (Chr Str.is_digit)
           (Star (fun c => Str.is_digit c || comma c || point c))).
(** optional white space *)
Definition ws : regex := Star Str.is_space.

Definition seqs (rs : list regex) : regex := fold_right Seq Eps rs.

(** [parse_number] *)
Definition number : regex := int_group.
(** [parse_speed] *)
Definition kmh : regex :=
  seqs [int_group; ws; word liti "km"; Opt (Chr (lit "/")); word liti "h"].
Definition mph : regex := seqs [int_group; ws; word liti "mph"].
Definition mach : regex :=
  seqs [word lit "Mach"; ws; Grp (Plus (fun c => Str.is_digit c || point c))].
(** [parse_distance] *)
Definition km : regex := seqs [int_group; ws; word lit "km"].
Definition nmi : regex := seqs [int_group; ws; word liti "nmi"].
Definition mi : regex := seqs [int_group; ws; word lit "mi"].
(** [parse_length] *)
Definition metre : regex :=
  seqs [dec_group; ws; word lit "m"; NotAhead Str.is_digit].
Definition ft : regex := seqs [dec_group; ws; word lit "ft"].
(** [parse_area] *)
Definition m2 : regex :=
  seqs [dec_group; ws; word lit "m"; Opt (Chr (lit "^")); word lit "2"].
Definition sqft : regex :=
  seqs [dec_group; ws; word liti "sq"; ws; word liti "ft"].
(** [parse_mass] *)
Definition kg : regex := seqs [dec_group; ws; word lit "kg"].
Definition tonne : regex := seqs [dec_group; ws; word lit "t"].
Definition lb : regex := seqs [dec_group; ws; word lit "lb"].
(** [parse_volume] *)
Definition m3 : regex :=
  seqs [dec_group; ws; word lit "m"; Opt (Chr (lit "^")); word lit "3"].
Definition cuft : regex :=
  seqs [dec_group; ws; Alt (word liti "cu") (word liti "cubic"); ws;
        word liti "ft"].
(** [parse_fuel_volume] *)
Definition liters : regex := seqs [dec_group; ws; word lit "L"].
Definition gal : regex :=
  seqs [dec_group; ws; Opt (Seq (word lit "US") ws); word lit "gal"].
(** [parse_force] *)
Definition kn : regex := seqs [dec_group; ws; word lit "kN"].
Definition lbf : regex := seqs [dec_group; ws; word liti "lbf"].

End Pat.

(** [float(match.group(1).replace(",", ""))] *)
Definition group_float (g : string) : result float :=
  Float.of_str (Str.remove_char "," g).

(** One alternative of a parser: the pattern and the factor its captured
    number is multiplied by ([None] when the number is returned as is). *)
Definition unit_alt : Type := Re.regex * option float.

(** The common shape of the parsers: the alternatives are searched in
    order and the first whose pattern is found decides the result. *)
Fixpoint first_unit (alts : list unit_alt) (text : string)
  : result (option float) :=
  match alts with
  | [] => Ok None
  | (r, factor) :: rest =>
      match Re.search r text with
      | Some g =>
          let* x := group_float g in
          Ok (Some (match factor with
                    | Some f => Float.mul x f
                    | None => x
                    end))
      | None => first_unit rest text
      end
  end.

Definition dec (n : Z) (k : nat) : float := Float.of_decimal n k.

Definition parse_number (text : string) : result (option float) :=
  first_unit [(Pat.number, None)] (clean_text text).

Definition parse_int_value (text : string) : result (option Z) :=
  let* num := parse_number text in
  match num with
  | None => Ok None
  | Some x => let* n := Float.to_int x in Ok (Some n)
  end.

Definition parse_speed (text : string) : result (option float) :=
  first_unit [(Pat.kmh, None);
              (Pat.mph, Some (dec 160934 5));
              (Pat.mach, Some (Float.of_Z 1225))] (clean_text text).

Definition parse_distance (text : string) : result (option float) :=
  first_unit [(Pat.km, None);
              (Pat.nmi, Some (dec 1852 3));
              (Pat.mi, Some (dec 160934 5))] (clean_text text).

Definition parse_length (text : string) : result (option float) :=
  first_unit [(Pat.metre, None); (Pat.ft, Some (dec 3048 4))] (clean_text text).

Definition parse_area (text : string) : result (option float) :=
  first_unit [(Pat.m2, None); (Pat.sqft, Some (dec 92903 6))] (clean_text text).

Definition parse_mass (text : string) : result (option float) :=
  first_unit [(Pat.kg, None);
              (Pat.tonne, Some (Float.of_Z 1000));
              (Pat.lb, Some (dec 453592 6))] (clean_text text).

Definition parse_volume (text : string) : result (option float) :=
  first_unit [(Pat.m3, None); (Pat.cuft, Some (dec 283168 7))] (clean_text text).

Definition parse_fuel_volume (text : string) : result (option float) :=
  first_unit [(Pat.liters, None); (Pat.gal, Some (dec 378541 5))]
             (clean_text text).

Definition parse_force (text : string) : result (option float) :=
  first_unit [(Pat.kn, None); (Pat.lbf, Some (dec 444822 8))] (clean_text text).

(** ** Values, profiles and the field registry *)

(** The values stored in an output record. *)
Inductive value : Type :=
| VInt (n : Z)
| VFloat (x : float)
| VStr (s : string).

(** [bool(v)] *)
Definition truthy (v : value) : bool :=
  match v with
  | VInt n => negb (n =? 0)
  | VFloat x => Float.truthy x
  | VStr s => negb (Str.is_empty s)
  end.

(** [float(v)]; for a string see [Float.of_str] *)
Definition to_float (v : value) : result float :=
  match v with
  | VInt n => Float.of_int n
  | VFloat x => Ok x
  | VStr s => Float.of_str s
  end.

Record AircraftSpec : Type := {
  id : string;
  display_name : string;
  wiki_page : string;
  aircraft_class : string;
  fuel_profile : string;
  order : Z;
  spec_type : string;
  role : string;
  variant_column : option string;
  seat_keywords : list string;
  range_keywords : list string;
  cruise_keywords : list string;
  default_seats : option Z
}.

Record FieldDef : Type := {
  key : string;
  keywords : list string;
  parser : string -> result (option value);
  skip : list string
}.

Definition TURNAROUND_BY_CLASS : gmap string Z :=
  list_to_map
    [("regional", 25); ("narrowbody", 45); ("widebody", 75); ("jumbo", 100)].

Definition FUEL_PROFILES : gmap string (string * float) :=
  list_to_map
    [("regional_turboprop", ("seats", dec 18 3));
     ("regional_jet", ("seats", dec 24 3));
     ("regional_jet_modern", ("seats", dec 22 3));
     ("narrowbody_classic", ("seats", dec 22 3));
     ("narrowbody_modern", ("seats", dec 19 3));
     ("widebody_classic", ("seats", dec 19 3));
     ("widebody_modern", ("seats", dec 17 3));
     ("jumbo_legacy", ("seats", dec 24 3));
     ("jumbo_modern", ("seats", dec 21 3));
     ("cargo_widebody", ("payload", dec 55 6));
     ("cargo_jumbo", ("payload", dec 5 5))].

(** The dataclass defaults of [AircraftSpec]. *)
Definition passenger (i name page cls fuel : string) (ord : Z)
    (kind : string) (variant : option string) : AircraftSpec :=
  {| id := i; display_name := name; wiki_page := page;
     aircraft_class := cls; fuel_profile := fuel; order := ord;
     spec_type := kind; role := "passenger"; variant_column := variant;
     seat_keywords :=
       ["seating"; "3-class"; "2-class"; "passenger"; "capacity"; "max"];
     range_keywords := ["range"];
     cruise_keywords := ["cruise"; "cruising"; "speed"];
     default_seats := None |}.

Definition with_seat_keywords (kws : list string) (p : AircraftSpec)
  : AircraftSpec :=
  {| id := id p; display_name := display_name p; wiki_page := wiki_page p;
     aircraft_class := aircraft_class p; fuel_profile := fuel_profile p;
     order := order p; spec_type := spec_type p; role := role p;
     variant_column := variant_column p; seat_keywords := kws;
     range_keywords := range_keywords p;
     cruise_keywords := cruise_keywords p;
     default_seats := default_seats p |}.

(** [role="cargo", default_seats=0, seat_keywords=()] *)
Definition cargo (i name page cls fuel : string) (ord : Z)
    (kind : string) (variant : option string) : AircraftSpec :=
  {| id := i; display_name := name; wiki_page := page;
     aircraft_class := cls; fuel_profile := fuel; order := ord;
     spec_type := kind; role := "cargo"; variant_column := variant;
     seat_keywords := [];
     range_keywords := ["range"];
     cruise_keywords := ["cruise"; "cruising"; "speed"];
     default_seats := Some 0 |}.

Definition PLANES : list AircraftSpec :=
  [passenger "ATR72" "ATR 72-600" "ATR_72" "regional" "regional_turboprop" 1 "table" (Some "ATR 72-600");
   passenger "CRJ9" "Bombardier CRJ900" "Bombardier_CRJ700_series" "regional" "regional_jet" 2 "table" (Some "CRJ900");
   passenger "E175" "Embraer E175" "Embraer_175" "regional" "regional_jet" 3 "table" (Some "E175");
   passenger "E190" "Embraer E190" "Embraer_190" "regional" "regional_jet" 4 "table" (Some "E190");
   passenger "E195E2" "Embraer E195-E2" "Embraer_E-Jet_E2_family" "regional" "regional_jet_modern" 5 "table" (Some "E195-E2");
   passenger "B737-700" "Boeing 737-700" "Boeing_737-700" "narrowbody" "narrowbody_classic" 10 "list" None;
   passenger "B737-800" "Boeing 737-800" "Boeing_737-800" "narrowbody" "narrowbody_classic" 11 "list" None;
   passenger "B737MAX8" "Boeing 737 MAX 8" "Boeing_737_MAX" "narrowbody" "narrowbody_modern" 12 "table" (Some "737 MAX 8");
   passenger "A320" "Airbus A320ceo" "Airbus_A320" "narrowbody" "narrowbody_classic" 13 "table" (Some "A320");
   passenger "A320NEO" "Airbus A320neo" "Airbus_A320neo_family" "narrowbody" "narrowbody_modern" 14 "table" (Some "A320neo");
   passenger "A321NEO" "Airbus A321neo" "Airbus_A321neo" "narrowbody" "narrowbody_modern" 15 "table" (Some "A321neo");
   passenger "B767-300ER" "Boeing 767-300ER" "Boeing_767" "widebody" "widebody_classic" 20 "table" (Some "767-300ER");
   passenger "B777-300ER" "Boeing 777-300ER" "Boeing_777" "widebody" "widebody_classic" 21 "table" (Some "777-300ER");
   passenger "B787-9" "Boeing 787-9" "Boeing_787_Dreamliner" "widebody" "widebody_modern" 22 "table" (Some "787-9");
   passenger "A330-900" "Airbus A330-300" "Airbus_A330" "widebody" "widebody_modern" 23 "table" (Some "A330-300");
   with_seat_keywords ["seat"; "passenger"; "capacity"]
     (passenger "A350-900" "Airbus A350-900" "Airbus_A350" "widebody" "widebody_modern" 24 "list" None);
   cargo "B767-300F" "Boeing 767-300F" "Boeing_767" "widebody" "cargo_widebody" 26 "table" (Some "767-300ER/F");
   cargo "B777F" "Boeing 777F" "Boeing_777F" "widebody" "cargo_widebody" 27 "table" (Some "777-200LR/777F");
   cargo "A330-200F" "Airbus A330-200F" "Airbus_A330-200F" "widebody" "cargo_widebody" 28 "table" None;
   cargo "B747-8F" "Boeing 747-8F" "Boeing_747-8" "jumbo" "cargo_jumbo" 29 "table" (Some "747-8F");
   passenger "B747-400" "Boeing 747-400" "Boeing_747-400" "jumbo" "jumbo_legacy" 30 "table" (Some "747-400");
   passenger "A380-800" "Airbus A380-800" "Airbus_A380" "jumbo" "jumbo_modern" 31 "table" (Some "A380-841")].

Definition float_field (p : string -> result (option float))
  : string -> result (option value) :=
  fun raw => let* x := p raw in Ok (VFloat <$> x).

Definition int_field (p : string -> result (option Z))
  : string -> result (option value) :=
  fun raw => let* x := p raw in Ok (VInt <$> x).

Definition text_field (p : string -> string)
  : string -> result (option value) :=
  fun raw => Ok (Some (VStr (p raw))).

Definition FIELD_DEFS : list FieldDef :=
  [Build_FieldDef "crew" ["crew"] (int_field parse_int_value) [];
   Build_FieldDef "three_class_seats" ["3-class seats"; "three-class"] (int_field parse_int_value) [];
   Build_FieldDef "two_class_seats" ["2-class seats"; "two-class"] (int_field parse_int_value) [];
   Build_FieldDef "one_class_max_seats" ["1-class"; "one-class"; "max seating"; "maximum seating"] (int_field parse_int_value) [];
   Build_FieldDef "cargo_volume_m3" ["cargo volume"; "cargo capacity"; "hold"] (float_field parse_volume) [];
   Build_FieldDef "mtow_kg" ["mtow"; "max takeoff weight"] (float_field parse_mass) [];
   Build_FieldDef "max_payload_kg" ["max payload"; "payload"] (float_field parse_mass) [];
   Build_FieldDef "oew_kg" ["oew"; "operating empty weight"] (float_field parse_mass) [];
   Build_FieldDef "fuel_capacity_l" ["fuel capacity"; "max fuel"] (float_field parse_fuel_volume) [];
   Build_FieldDef "length_m" ["length"] (float_field parse_length) [];
   Build_FieldDef "wingspan_m" ["wingspan"; "span"] (float_field parse_length) [];
   Build_FieldDef "height_m" ["height"] (float_field parse_length) ["width"];
   Build_FieldDef "wing_area_m2" ["wing area"] (float_field parse_area) [];
   Build_FieldDef "engine_type" ["engines"; "engine"] (text_field clean_text) [];
   Build_FieldDef "engine_thrust_kn" ["thrust"] (float_field parse_force) [];
   Build_FieldDef "service_ceiling_m" ["ceiling"; "service ceiling"] (float_field parse_length) [];
   Build_FieldDef "max_speed_kmh" ["maximum speed"; "high speed cruise"] (float_field parse_speed) [];
   Build_FieldDef "takeoff_distance_m" ["takeoff"] (float_field parse_length) [];
   Build_FieldDef "landing_distance_m" ["landing"] (float_field parse_length) [];
   Build_FieldDef "icao_type" ["icao"; "icao type"] (text_field clean_text) []].

(** ** Loops that return from their first successful iteration *)

Section Loops.
Context {A B : Type}.

(** [for a in l: if f(a) gives a value: return it] *)
Fixpoint for_first (f : A -> option B) (l : list A) : option B :=
  match l with
  | [] => None
  | a :: l' =>
      match f a with
      | Some b => Some b
      | None => for_first f l'
      end
  end.

(** the same loop when the body may raise *)
Fixpoint for_first_r (f : A -> result (option B)) (l : list A)
  : result (option B) :=
  match l with
  | [] => Ok None
  | a :: l' =>
      let* r := f a in
      match r with
      | Some b => Ok (Some b)
      | None => for_first_r f l'
      end
  end.
End Loops.

(** ** Documents *)

(** A table as [pandas.read_html] returns it: the header of each column
    rendered by [str], the cells of its first column rendered by [str],
    and the cells of the re-indexed frame, [raw_at idx column] standing
    for [str(df.at[idx, column])].  The value read at a label and a column
    depends on the two names only, also when a label occurs twice. *)
Record RawTable : Type := {
  raw_columns : list string;
  raw_first : list string;
  raw_at : string -> string -> string
}.

(** The frame after the normalisation at the head of the loop of
    [extract_table_spec]: cleaned headers, the cleaned first column as the
    index, the first column no longer among the columns. *)
Record DataFrame : Type := {
  df_columns : list string;
  df_index : list string;
  df_at : string -> string -> string
}.

Definition shape1 (t : RawTable) : nat := length (raw_columns t).

(** The frame the normalisation builds when it goes through. *)
Definition frame (t : RawTable) : DataFrame :=
  {| df_columns := tail (map clean_text (raw_columns t));
     df_index := map clean_text (raw_first t);
     df_at := raw_at t |}.

(** The cleaned first header occurs again among the cleaned headers.
    Cleaning can make two distinct headers equal. *)
Definition header_clash (t : RawTable) : bool :=
  match map clean_text (raw_columns t) with
  | [] => false
  | first_col :: others => existsb (String.eqb first_col) others
  end.

(** The normalisation itself.  When the cleaned first header names more
    than one column, [df[first_col]] is a frame of several columns and
    [df.insert] raises [ValueError]. *)
Definition reindex (t : RawTable) : result DataFrame :=
  if header_clash t then Raise ValueError else Ok (frame t).

(** A fetched page: whether its markup is empty or white space only (such
    a page has no tables), its tables in document order and its [<li>]
    elements, each with the text of its first [<b>] (if any) and its own
    text. *)
Record Document : Type := {
  doc_blank : bool;
  doc_tables : list RawTable;
  doc_li : list (option string * string)
}.

(** [pd.read_html] on a page without tables: the parser raises
    [XMLSyntaxError] when the page is blank, pandas raises [ValueError]
    otherwise. *)
Definition read_html (html : Document) : result (list RawTable) :=
  match doc_tables html with
  | [] => Raise (if doc_blank html then XMLSyntaxError else ValueError)
  | ts => Ok ts
  end.

Definition build_list_items (soup : Document) : list (string * string) :=
  omap (fun li =>
          match fst li with
          | None => None
          | Some bold => Some (Str.lower (clean_text bold), snd li)
          end) (doc_li soup).

(** ** Keyword matcher *)

(** [any(skip in label for skip in skip_terms)] *)
Definition any_in (label : string) (skip_terms : list string) : bool :=
  existsb (Str.contains label) skip_terms.

Definition find_in_list (items : list (string * string))
    (keywords skip_terms : list string) : option string :=
  for_first (fun key =>
    let low_key := Str.lower key in
    for_first (fun item : string * string =>
      let (label, text) := item in
      if any_in label skip_terms then None
      else if Str.contains label low_key then Some text
      else None) items) keywords.

Definition has_index_keyword (index keywords : list string) : bool :=
  existsb (fun idx =>
    let lowered := Str.lower idx in
    existsb (fun key => Str.contains lowered (Str.lower key)) keywords) index.

(** a cell that [find_row_value] returns: [value and value != "nan"] *)
Definition usable (value : string) : bool :=
  negb (Str.is_empty value) && negb (String.eqb value "nan").

Definition row_lookup (df : DataFrame) (column : string)
    (keywords skip_terms : list string) : option string :=
  for_first (fun key =>
    let low_key := Str.lower key in
    for_first (fun idx =>
      if Str.contains (Str.lower idx) low_key then
        if any_in (Str.lower idx) skip_terms then None
        else
          let value := df_at df idx column in
          if usable value then Some value else None
      else None) (df_index df)) keywords.

Definition find_row_value (df : DataFrame) (column : string)
    (keywords skip_terms : list string) : result string :=
  match row_lookup df column keywords skip_terms with
  | Some value => Ok value
  | None => Raise RuntimeError
  end.

Definition extract_li_value (items : list (string * string))
    (keywords : list string) (parser : string -> result (option float))
    (skip_terms : list string) : result (option float) :=
  for_first_r (fun key =>
    let low_key := Str.lower key in
    for_first_r (fun item : string * string =>
      let (label, text) := item in
      if any_in label skip_terms then Ok None
      else if Str.contains label low_key then
        let* value := parser text in
        match value with
        | Some v => if Float.truthy v then Ok (Some v) else Ok None
        | None => Ok None
        end
      else Ok None) items) keywords.

(** ** Field registry run *)

(** the two tests after [value is None] in [collect_table_fields] and
    [collect_list_fields] *)
Definition dropped (v : value) : bool :=
  match v with
  | VInt n => n =? 0
  | VFloat x => Float.eqb x Float.zero
  | VStr s => Str.is_empty (Str.strip s)
  end.

Fixpoint collect_fields (raw_of : FieldDef -> option string)
    (fields : list FieldDef) (extras : gmap string value)
  : result (gmap string value) :=
  match fields with
  | [] => Ok extras
  | field :: rest =>
      match raw_of field with
      | None => collect_fields raw_of rest extras
      | Some raw =>
          let* value := parser field raw in
          match value with
          | None => collect_fields raw_of rest extras
          | Some v =>
              if dropped v then collect_fields raw_of rest extras
              else collect_fields raw_of rest (<[key field := v]> extras)
          end
      end
  end.

(** [try: ... except RuntimeError: continue] *)
Definition caught (r : result string) : option string :=
  match r with
  | Ok raw => Some raw
  | Raise _ => None
  end.

Definition collect_table_fields (df : DataFrame) (column : string)
  : result (gmap string value) :=
  collect_fields
    (fun field =>
       caught (find_row_value df column (keywords field) (skip field)))
    FIELD_DEFS ∅.

Definition collect_list_fields (items : list (string * string))
  : result (gmap string value) :=
  collect_fields
    (fun field => find_in_list items (keywords field) (skip field))
    FIELD_DEFS ∅.

(** ** Table extractor *)

(** what an extractor returns: seats, range in km, cruise speed in km/h
    and the extra fields *)
Definition extraction : Type := Z * float * float * gmap string value.

(** The data column: [Ok None] rejects the table. *)
Definition resolve_column (variant : option string) (columns : list string)
  : result (option string) :=
  match variant with
  | Some column =>
      if Str.is_empty column then
        match last columns with
        | Some col => Ok (Some col)
        | None => Raise IndexError
        end
      else
        Ok (for_first (fun col =>
              if Str.contains (Str.lower col) (Str.lower column)
              then Some col else None) columns)
  | None =>
      match last columns with
      | Some col => Ok (Some col)
      | None => Raise IndexError
      end
  end.

(** [x or 0.0] for an optional float *)
Definition or_zero (x : option float) : float :=
  match x with
  | Some v => if Float.truthy v then v else Float.zero
  | None => Float.zero
  end.

(** [int(parse_number(seat_val) or 0) if seat_val else 0] *)
Definition seat_count (seat_val : option string) : result Z :=
  match seat_val with
  | Some text =>
      if Str.is_empty text then Ok 0
      else
        let* num := parse_number text in
        match num with
        | Some x => if Float.truthy x then Float.to_int x else Ok 0
        | None => Ok 0
        end
  | None => Ok 0
  end.

(** The seat cell of a table: [None] rejects the table, [Some seat_val]
    goes on with [seat_val] possibly [None]. *)
Definition seat_cell (plane : AircraftSpec) (df : DataFrame)
    (column : string) : option (option string) :=
  match seat_keywords plane with
  | _ :: _ =>
      match find_row_value df column (seat_keywords plane) ["cargo"; "range"] with
      | Ok v => Some (Some v)
      | Raise _ =>
          match default_seats plane with
          | None => None
          | Some _ => Some None
          end
      end
  | [] =>
      match default_seats plane with
      | None => None
      | Some _ => Some None
      end
  end.

(** The tests that close the loop body of [extract_table_spec]. *)
Definition accept (plane : AircraftSpec) (seats : Z) (range_km cruise : float)
  : bool :=
  negb ((seats =? 0) && negb (String.eqb (role plane) "cargo"))
  && negb (Float.eqb range_km Float.zero || Float.eqb cruise Float.zero).

(** One iteration of the loop over the tables: [Ok None] is [continue],
    [Ok (Some _)] is [return]. *)
Definition try_table (plane : AircraftSpec) (raw_df : RawTable)
  : result (option extraction) :=
  if (shape1 raw_df <? 2)%nat then Ok None else
  let* df := reindex raw_df in
  if (match default_seats plane with None => true | Some _ => false end)
     && negb (has_index_keyword (df_index df) (seat_keywords plane))
  then Ok None else
  if negb (has_index_keyword (df_index df) (range_keywords plane))
  then Ok None else
  let* matched := resolve_column (variant_column plane) (df_columns df) in
  match matched with
  | None => Ok None
  | Some column =>
      let* extras := collect_table_fields df column in
      match seat_cell plane df column with
      | None => Ok None
      | Some seat_val =>
          match find_row_value df column (range_keywords plane) [],
                find_row_value df column (cruise_keywords plane) [] with
          | Ok range_val, Ok cruise_val =>
              let* seats := seat_count seat_val in
              let seats :=
                match default_seats plane with
                | Some d => if seats =? 0 then d else seats
                | None => seats
                end in
              let* range := parse_distance range_val in
              let range_km := or_zero range in
              let* speed := parse_speed cruise_val in
              let cruise := or_zero speed in
              if accept plane seats range_km cruise
              then Ok (Some (seats, range_km, cruise, extras))
              else Ok None
          | _, _ => Ok None
          end
      end
  end.

Definition extract_table_spec (plane : AircraftSpec) (html : Document)
  : result extraction :=
  let* tables := read_html html in
  let* found := for_first_r (try_table plane) tables in
  match found with
  | Some r => Ok r
  | None => Raise RuntimeError
  end.

(** ** List extractor *)

Definition extract_list_spec (plane : AircraftSpec) (soup : Document)
  : result extraction :=
  let items := build_list_items soup in
  let* seats := extract_li_value items (seat_keywords plane) parse_number
                  ["width"; "pitch"; "cargo"; "range"] in
  let* range_km := extract_li_value items (range_keywords plane)
                     parse_distance [] in
  let* cruise := extract_li_value items (cruise_keywords plane)
                   parse_speed [] in
  let* seats :=
    match seats with
    | Some x => Ok (VFloat x)
    | None =>
        match default_seats plane with
        | None => Raise RuntimeError
        | Some d => Ok (VInt d)
        end
    end in
  match range_km, cruise with
  | Some r, Some c =>
      let* extras := collect_list_fields items in
      let* n := match seats with
                | VFloat x => Float.to_int x
                | VInt d => Ok d
                | VStr _ => Raise ValueError
                end in
      Ok (n, r, c, extras)
  | _, _ => Raise RuntimeError
  end.

(** ** Derived metrics *)

(** [a or b] on the results of [dict.get] *)
Definition or_else (a b : option value) : option value :=
  match a with
  | Some v => if truthy v then a else b
  | None => b
  end.

Definition is_true (a : option value) : bool :=
  match a with
  | Some v => truthy v
  | None => false
  end.

Definition compute_fuel_cost (plane : AircraftSpec) (data : gmap string value)
  : result float :=
  match FUEL_PROFILES !! fuel_profile plane with
  | None => Raise KeyError
  | Some (profile_type, factor) =>
      let* base :=
        if String.eqb profile_type "seats" then
          let seats := default (VInt 0) (data !! "seats") in
          to_float (if truthy seats then seats else VInt 0)
        else if String.eqb profile_type "payload" then
          let payload := or_else (data !! "max_payload_kg") (data !! "mtow_kg") in
          match payload with
          | Some v => if truthy v then to_float v else Ok Float.zero
          | None => Ok Float.zero
          end
        else Ok Float.zero in
      let* base :=
        if Float.leb base Float.zero && is_true (data !! "seats") then
          match data !! "seats" with
          | Some v => to_float v
          | None => Raise KeyError
          end
        else Ok base in
      if Float.leb base Float.zero then Ok Float.zero
      else Ok (Float.round (Float.mul base factor) 2)
  end.

(** ** Record assembler and batch *)

Section Batch.
(** the fetch collaborator: the page behind a name, or the transport
    error of [raise_for_status] *)
Variable fetch_html : string -> result Document.

Definition build_entry (plane : AircraftSpec) : result (gmap string value) :=
  let* html := fetch_html (wiki_page plane) in
  let* found :=
    if String.eqb (spec_type plane) "table"
    then extract_table_spec plane html
    else extract_list_spec plane html in
  let '(seats, range_km, cruise, extras) := found in
  let* turnaround :=
    match TURNAROUND_BY_CLASS !! aircraft_class plane with
    | Some t => Ok t
    | None => Raise KeyError
    end in
  let entry : gmap string value :=
    <["turnaround_min" := VInt turnaround]>
    (<["role" := VStr (role plane)]>
    (<["cruise_kmh" := VFloat (Float.round cruise 1)]>
    (<["seats" := VInt seats]>
    (<["range_km" := VFloat (Float.round range_km 1)]>
    (<["name" := VStr (display_name plane)]>
    (<["id" := VStr (id plane)]> ∅)))))) in
  (* for key, value in extras.items(): entry[key] = value *)
  let entry := extras ∪ entry in
  let entry :=
    if String.eqb (role plane) "cargo" then
      <["seats" := VInt 0]>
      (foldl (fun e seat_key => delete seat_key e) entry
             ["three_class_seats"; "two_class_seats"; "one_class_max_seats"])
    else entry in
  let* fuel := compute_fuel_cost plane entry in
  Ok (<["fuel_cost_per_km" := VFloat fuel]> entry).

(** [sorted(planes, key=lambda p: p.order)]: a stable sort *)
Fixpoint insert_by_order (p : AircraftSpec) (l : list AircraftSpec)
  : list AircraftSpec :=
  match l with
  | [] => [p]
  | q :: l' =>
      if order p <=? order q then p :: q :: l'
      else q :: insert_by_order p l'
  end.

Definition sorted (planes : list AircraftSpec) : list AircraftSpec :=
  foldr insert_by_order [] planes.

(** the loop of [main]: the entries in the order they are appended *)
Fixpoint build_all (planes : list AircraftSpec)
  : result (list (gmap string value)) :=
  match planes with
  | [] => Ok []
  | plane :: rest =>
      let* entry := build_entry plane in
      let* entries := build_all rest in
      Ok (entry :: entries)
  end.

(** [main], run over a profile list: the entries it writes to the data
    file, or the exception that ends the run before anything is
    written *)
Definition main (planes : list AircraftSpec)
  : result (list (gmap string value)) :=
  build_all (sorted planes).
End Batch.

(** ** Concrete tables

    A table given by its header row and its rows of cells, first column
    included.  Reading a cell by label and header finds the row and the
    column by name; labels and headers are meant to be distinct. *)

Fixpoint cell_of (names : list string) (cells : list string) (column : string)
  : string :=
  match names, cells with
  | n :: names', c :: cells' =>
      if String.eqb n column then c else cell_of names' cells' column
  | _, _ => "nan"
  end.

Definition table_at (headers : list string) (rows : list (list string))
    (idx column : string) : string :=
  match for_first (fun row : list string =>
          match row with
          | label :: cells =>
              if String.eqb (clean_text label) idx then Some cells else None
          | [] => None
          end) rows with
  | Some cells => cell_of (tail (map clean_text headers)) cells column
  | None => "nan"
  end.

Definition table_of (headers : list string) (rows : list (list string))
  : RawTable :=
  {| raw_columns := headers;
     raw_first := map (fun row => hd "nan" row) rows;
     raw_at := table_at headers rows |}.

(** ** Sample pages

    Small pages in the shape of the articles the script reads, used to
    run the definitions on concrete input. *)

Definition a320 : AircraftSpec :=
  passenger "A320" "Airbus A320ceo" "Airbus_A320" "narrowbody"
            "narrowbody_classic" 13 "table" (Some "A320").

Definition a320_table : RawTable :=
  table_of ["Variant"; "A319"; "A320[2]"; "A321"]
    [["Cockpit crew"; "2"; "2"; "2"];
     ["Seat pitch"; "30 in"; "nan"; "30 in"];
     ["2-class seats"; "124"; "150"; "185"];
     ["Length"; "33.84 m (111 ft)"; "37.57 m (123 ft 3 in)"; "44.51 m"];
     ["MTOW"; "75.5 t"; "78 t (172,000 lb)"; "93.5 t"];
     ["Range[a]"; "6,950 km"; "6,200 km (3,350 nmi)"; "5,950 km"];
     ["Cruise speed"; "Mach 0.78"; "Mach 0.78 (829 km/h; 515 mph)"; "Mach 0.78"];
     ["Engines"; "CFM56"; "CFM56-5B [x] "; "V2500"]].

Definition a320_page : Document :=
  {| doc_blank := false;
     doc_tables := [table_of ["Airbus A320"] [["narrow-body airliner"]];
                    a320_table];
     doc_li := [] |}.

Definition b748f : AircraftSpec :=
  cargo "B747-8F" "Boeing 747-8F" "Boeing_747-8" "jumbo" "cargo_jumbo" 29
        "table" (Some "747-8F").

Definition b748f_table : RawTable :=
  table_of ["Model"; "747-8I"; "747-8F"]
    [["3-class seats"; "467"; "12"];
     ["Max payload"; "76 t"; "nan"];
     ["MTOW"; "987,000 lb"; "987,000 lb (447,700 kg)"];
     ["Range"; "14,320 km"; "7,630 km"];
     ["Speed"; "Mach 0.86"; "Mach 0.845 (903 km/h)"]].

Definition b748f_page : Document :=
  {| doc_blank := false; doc_tables := [b748f_table]; doc_li := [] |}.

Definition b738 : AircraftSpec :=
  passenger "B737-800" "Boeing 737-800" "Boeing_737-800" "narrowbody"
            "narrowbody_classic" 11 "list" None.

Definition b738_page : Document :=
  {| doc_blank := false;
     doc_tables := [];
     doc_li :=
       [(None, "See also");
        (Some "Seat Pitch", "Seat Pitch: 30 in");
        (Some "Capacity:", "Capacity: 189 passengers");
        (Some "Range", "Range: unknown");
        (Some "Ferry range[3]", "Ferry range: 2,935 nmi");
        (Some "Cruise speed", "Cruise speed: Mach 0.785");
        (Some "Length", "Length: 129 ft 6 in (39.47 m)")] |}.

(** a profile whose variant is not a column of its page *)
Definition a318 : AircraftSpec :=
  passenger "A318" "Airbus A318" "Airbus_A320" "narrowbody"
            "narrowbody_classic" 9 "table" (Some "A318").

(** a table whose first range row has an empty cell *)
Definition range_table : RawTable :=
  table_of ["Model"; "737-800"]
    [["Range"; "nan"];
     ["Ferry range"; "5,000 km"];
     ["Cruise"; "842 km/h"]].

(** the rows of the keyword-exclusion example, each row its own label *)
Definition seat_rows : list (string * string) :=
  [("seat pitch", "seat pitch");
   ("seating capacity: 180", "seating capacity: 180")].

(** bullet items whose first range items give no usable number *)
Definition range_items : list (string * string) :=
  [("range", "Range: unknown");
   ("range", "Range: 0 km");
   ("ferry range", "Ferry range: 2,935 nmi")].

(** a cargo page that gives neither a payload nor a take-off weight *)
Definition bare_cargo_page : Document :=
  {| doc_blank := false;
     doc_tables :=
       [table_of ["Model"; "747-8F"]
          [["Range"; "7,630 km"]; ["Speed"; "903 km/h"]]];
     doc_li := [] |}.

(** a page without markup *)
Definition blank_page : Document :=
  {| doc_blank := true; doc_tables := []; doc_li := [] |}.

(** a table whose first two headers are equal once cleaned, and a page
    that shows it before a table of the variant *)
Definition clash_table : RawTable :=
  table_of ["Variant"; "Variant[a]"; "A320"]
    [["2-class seats"; "seats"; "150"];
     ["Range"; "range"; "6,200 km"];
     ["Cruise speed"; "speed"; "829 km/h"]].

Definition clash_page : Document :=
  {| doc_blank := false;
     doc_tables := [table_of ["Airbus A320"] [["narrow-body airliner"]];
                    clash_table;
                    a320_table];
     doc_li := [] |}.

Definition bare_pages (page : string) : result Document := Ok bare_cargo_page.

(** the pages by article name; any other article is a transport error *)
Definition sample_pages (page : string) : result Document :=
  if String.eqb page "Airbus_A320" then Ok a320_page
  else if String.eqb page "Boeing_747-8" then Ok b748f_page
  else if String.eqb page "Boeing_737-800" then Ok b738_page
  else Raise HTTPError.

(** ** Notions used in the statements *)

(** [needle.lower() in hay.lower()] *)
Definition contains_ci (hay needle : string) : bool :=
  Str.contains (Str.lower hay) (Str.lower needle).

(** a value that is neither a numeric zero nor a blank string *)
Definition nonzero_value (v : value) : Prop :=
  match v with
  | VInt n => n <> 0
  | VFloat x => Float.eqb x Float.zero = false
  | VStr s => Str.strip s <> ""
  end.

(** what [collect_fields] stores under a key: a value its field parsed from
    the text matched for it, and that passed the two tests *)
Definition stored (raw_of : FieldDef -> option string)
    (fields : list FieldDef) (k : string) (v : value) : Prop :=
  exists field raw,
    In field fields /\ key field = k /\ raw_of field = Some raw /\
    parser field raw = Ok (Some v) /\ nonzero_value v.

(** The reading of the batch under which a failing profile leaves the
    others untouched: every profile that can be built has its record in
    the output of the run. *)
Definition batch_isolation : Prop :=
  forall (fetch_html : string -> result Document) (planes : list AircraftSpec)
         (plane : AircraftSpec) (entry : gmap string value),
    In plane planes ->
    build_entry fetch_html plane = Ok entry ->
    exists entries, main fetch_html planes = Ok entries /\ In entry entries.

(** [near x c t]: the exact value of the finite float [x] lies within
    [t/100] of [c/100] *)
Definition near (x : float) (c t : Z) : Prop :=
  match x with
  | S754_finite s m e =>
      let v := if s then Zneg m else Zpos m in
      if 0 <=? e then Z.abs (100 * v * 2 ^ e - c) <= t
      else Z.abs (100 * v - c * 2 ^ (- e)) <= t * 2 ^ (- e)
  | S754_zero _ => Z.abs c <= t
  | _ => False
  end.

Definition lowercase (s : string) : Prop := Str.lower s = s.

(** The label test of the keyword matcher: the label contains the keyword,
    both in lower case, and its lower case contains none of the exclusion
    terms. *)
Definition label_match (label key : string) (skip_terms : list string) : bool :=
  contains_ci label key && negb (any_in (Str.lower label) skip_terms).

(** The matcher in the words of its description: keywords in declared
    order, for each the entries in their order, the text of the first
    entry whose label passes the test. *)
Definition first_label_match (entries : list (string * string))
    (keywords skip_terms : list string) : option string :=
  for_first (fun key =>
    for_first (fun entry : string * string =>
      if label_match (fst entry) key skip_terms then Some (snd entry)
      else None) entries) keywords.

(** the (label, text) entries of one column of a frame, in index order *)
Definition rows_of (df : DataFrame) (column : string)
  : list (string * string) :=
  map (fun idx => (idx, df_at df idx column)) (df_index df).

(** The reading under which the matcher always returns the first entry
    whose label passes, on lists and on tables alike. *)
Definition first_entry_wins : Prop :=
  (forall items keywords skip_terms,
     Forall (fun item => lowercase (fst item)) items ->
     find_in_list items keywords skip_terms
     = first_label_match items keywords skip_terms)
  /\ (forall df column keywords skip_terms,
       row_lookup df column keywords skip_terms
       = first_label_match (rows_of df column) keywords skip_terms).

(** the frame with another list of row labels *)
Definition with_index (df : DataFrame) (index : list string) : DataFrame :=
  {| df_columns := df_columns df; df_index := index; df_at := df_at df |}.

(** what one bullet item yields for one keyword in [extract_li_value]:
    its parsed value when the label passes and the value is true *)
Definition li_step (p : string -> result (option float))
    (skip_terms : list string) (key : string) (item : string * string)
  : result (option float) :=
  if any_in (fst item) skip_terms then Ok None
  else if Str.contains (fst item) (Str.lower key) then
    let* value := p (snd item) in
    match value with
    | Some x => if Float.truthy x then Ok (Some x) else Ok None
    | None => Ok None
    end
  else Ok None.

(** a parse that [extract_li_value] does not return: no match, or zero *)
Definition no_value (r : result (option float)) : Prop :=
  r = Ok None \/ exists x, r = Ok (Some x) /\ Float.truthy x = false.

(** a float above zero: a positive finite number or plus infinity *)
Definition positive_float (x : float) : Prop :=
  match x with
  | S754_finite false _ _ | S754_infinity false => True
  | _ => False
  end.

(** every character of [s] is in the class [p] *)
Fixpoint all_chars (p : ascii -> bool) (s : string) : bool :=
  match s with
  | EmptyString => true
  | String c s' => p c && all_chars p s'
  end.

(** a pattern without a capture group *)
Fixpoint nogroup (r : Re.regex) : bool :=
  match r with
  | Re.Grp _ => false
  | Re.Seq r1 r2 | Re.Alt r1 r2 => nogroup r1 && nogroup r2
  | _ => true
  end.

(** a digit followed by digits and commas *)
Definition int_numeral (g : string) : Prop :=
  exists c rest,
    g = String c rest /\ Str.is_digit c = true /\
    all_chars (fun x => Str.is_digit x || Pat.comma x) rest = true.

(** a float that is zero, a positive number or plus infinity *)
Definition nonneg_float (x : float) : Prop :=
  match x with
  | S754_zero false | S754_finite false _ _ | S754_infinity false => True
  | _ => False
  end.

(** a pattern that opens with the digits-and-commas group and has no
    other group *)
Definition int_pattern (r : Re.regex) : Prop :=
  r = Pat.number \/
  exists tail, r = Re.Seq Pat.int_group tail /\ nogroup tail = true.

(** a conversion factor: a positive finite float *)
Definition finite_factor (f : option float) : Prop :=
  match f with
  | Some (S754_finite false _ _) | None => True
  | _ => False
  end.

(** a string of [n] copies of one character *)
Fixpoint repeat_char (c : ascii) (n : nat) : string :=
  match n with
  | O => EmptyString
  | S n' => String c (repeat_char c n')
  end.

(** the exceptions of number conversion; [ValueError] is also raised for
    a table whose first header occurs twice and a page without tables *)
Definition parse_error (e : exn) : Prop := e = ValueError \/ e = OverflowError.


(** the keys [build_entry] sets itself *)
Definition record_keys : list string :=
  ["id"; "name"; "range_km"; "seats"; "cruise_kmh"; "role";
   "turnaround_min"; "fuel_cost_per_km"].

(** the rank order of two profiles *)
Definition by_order (p q : AircraftSpec) : Prop := order p <= order q.

(** the profiles of one rank *)
Definition of_rank (k : Z) (planes : list AircraftSpec) : list AircraftSpec :=
  List.filter (fun p => order p =? k) planes.

(** no label of the items contains a keyword of the list *)
Definition no_keyword_item (items : list (string * string))
    (keywords : list string) : Prop :=
  Forall (fun item : string * string =>
            Forall (fun key => Str.contains (fst item) (Str.lower key) = false)
                   keywords) items.

(** the footnote pattern of [clean_text]: an opening bracket, characters
    other than a closing bracket, a closing bracket *)
Definition footnote : Re.regex :=
  Re.Seq (Re.Chr (Re.lit "["))
         (Re.Seq (Re.Star (fun c => negb (Ascii.eqb c "]")))
                 (Re.Chr (Re.lit "]"))).

(** the replacement of the non-breaking space in [clean_text] *)
Definition unbreak (c : ascii) : ascii :=
  if Ascii.eqb c (ascii_of_N 160) then " "%char else c.

(** the character [x] occurs in [s] *)
Fixpoint has_char (x : ascii) (s : string) : bool :=
  match s with
  | EmptyString => false
  | String c s' => Ascii.eqb c x || has_char x s'
  end.

(** the text after the first closing bracket *)
Fixpoint after_close (s : string) : option string :=
  match s with
  | EmptyString => None
  | String c s' => if Ascii.eqb c "]" then Some s' else after_close s'
  end.

(** no opening bracket has a closing bracket after it *)
Fixpoint note_free (s : string) : bool :=
  match s with
  | EmptyString => true
  | String c s' =>
      (if Ascii.eqb c "[" then negb (has_char "]" s') else true)
      && note_free s'
  end.

(** [s] without its first [n] characters *)
Fixpoint skip_chars (n : nat) (s : string) : string :=
  match n, s with
  | S n', String _ s' => skip_chars n' s'
  | _, _ => s
  end.

(** * Properties *)

Local Open Scope list_scope.

(** closes an equation between closed terms by evaluating both sides *)
Ltac vm_refl :=
  match goal with
  | |- _ = ?r => vm_cast_no_check (@eq_refl _ r)
  end.

(** ** The result monad *)

Definition ok {A : Type} (r : result A) : Prop :=
  match r with
  | Ok _ => True
  | Raise _ => False
  end.

Lemma bind_Ok {A B : Type} (m : result A) (f : A -> result B) (b : B) :
  bind m f = Ok b <-> exists a, m = Ok a /\ f a = Ok b.
Proof.
  destruct m as [a|e]; simpl; split.
  - intros H. exists a. auto.
  - intros (a' & Ha & Hf). congruence.
  - discriminate.
  - intros (a' & Ha & _). discriminate.
Qed.

Lemma bind_Raise {A B : Type} (m : result A) (f : A -> result B) (e : exn) :
  bind m f = Raise e <->
  m = Raise e \/ exists a, m = Ok a /\ f a = Raise e.
Proof.
  destruct m as [a|e']; simpl; split.
  - intros H. right. exists a. auto.
  - intros [H|(a' & Ha & Hf)]; congruence.
  - intros [= ->]. left. reflexivity.
  - intros [H|(a' & Ha & _)]; congruence.
Qed.

Ltac inv_bind H :=
  let a := fresh "a" in
  let Ha := fresh "Ha" in
  apply bind_Ok in H; destruct H as (a & Ha & H).

(** ** First-success loops *)

Section LoopFacts.
Context {A B : Type}.

Lemma for_first_Some (f : A -> option B) (l : list A) (b : B) :
  for_first f l = Some b <->
  exists l1 a l2,
    l = l1 ++ a :: l2 /\ Forall (fun x => f x = None) l1 /\ f a = Some b.
Proof.
  induction l as [|x l IH]; simpl.
  - split; [discriminate|].
    intros (l1 & a & l2 & Hl & _). destruct l1; discriminate.
  - destruct (f x) as [b'|] eqn:Hx.
    + split.
      * intros [= ->]. exists [], x, l. auto.
      * intros (l1 & a & l2 & Hl & Hnone & Ha).
        destruct l1 as [|y l1]; simpl in Hl; injection Hl as -> ->.
        -- congruence.
        -- inversion Hnone; congruence.
    + rewrite IH. split.
      * intros (l1 & a & l2 & -> & Hnone & Ha).
        exists (x :: l1), a, l2. auto.
      * intros (l1 & a & l2 & Hl & Hnone & Ha).
        destruct l1 as [|y l1]; simpl in Hl; injection Hl as -> ->.
        -- congruence.
        -- inversion Hnone; subst. exists l1, a, l2. auto.
Qed.

Lemma for_first_None (f : A -> option B) (l : list A) :
  for_first f l = None <-> Forall (fun x => f x = None) l.
Proof.
  induction l as [|x l IH]; simpl.
  - split; auto.
  - destruct (f x) eqn:Hx.
    + split; [discriminate|]. inversion 1; congruence.
    + rewrite IH. split; [auto|]. inversion 1; auto.
Qed.

Lemma for_first_r_Some (f : A -> result (option B)) (l : list A) (b : B) :
  for_first_r f l = Ok (Some b) <->
  exists l1 a l2,
    l = l1 ++ a :: l2 /\ Forall (fun x => f x = Ok None) l1 /\
    f a = Ok (Some b).
Proof.
  induction l as [|x l IH]; simpl.
  - split; [discriminate|].
    intros (l1 & a & l2 & Hl & _). destruct l1; discriminate.
  - destruct (f x) as [[b'|]|e] eqn:Hx; simpl.
    + split.
      * intros [= ->]. exists [], x, l. auto.
      * intros (l1 & a & l2 & Hl & Hnone & Ha).
        destruct l1 as [|y l1]; simpl in Hl; injection Hl as -> ->.
        -- congruence.
        -- inversion Hnone; congruence.
    + rewrite IH. split.
      * intros (l1 & a & l2 & -> & Hnone & Ha).
        exists (x :: l1), a, l2. auto.
      * intros (l1 & a & l2 & Hl & Hnone & Ha).
        destruct l1 as [|y l1]; simpl in Hl; injection Hl as -> ->.
        -- congruence.
        -- inversion Hnone; subst. exists l1, a, l2. auto.
    + split; [discriminate|].
      intros (l1 & a & l2 & Hl & Hnone & Ha).
      destruct l1 as [|y l1]; simpl in Hl; injection Hl as -> ->.
      * congruence.
      * inversion Hnone; congruence.
Qed.

Lemma for_first_r_None (f : A -> result (option B)) (l : list A) :
  for_first_r f l = Ok None <-> Forall (fun x => f x = Ok None) l.
Proof.
  induction l as [|x l IH]; simpl.
  - split; auto.
  - destruct (f x) as [[b'|]|e] eqn:Hx; simpl.
    + split; [discriminate|]. inversion 1; congruence.
    + rewrite IH. split; [auto|]. inversion 1; auto.
    + split; [discriminate|]. inversion 1; congruence.
Qed.

End LoopFacts.

(** ** Acceptance of a table (C1) *)

Lemma accept_spec (plane : AircraftSpec) (seats : Z) (range_km cruise : float) :
  accept plane seats range_km cruise = true <->
  (seats <> 0 \/ role plane = "cargo") /\
  Float.eqb range_km Float.zero = false /\
  Float.eqb cruise Float.zero = false.
Proof.
  unfold accept.
  rewrite andb_true_iff, !negb_true_iff, andb_false_iff, orb_false_iff.
  rewrite negb_false_iff, Z.eqb_neq, String.eqb_eq. tauto.
Qed.

Lemma try_table_accept (plane : AircraftSpec) (t : RawTable)
    (seats : Z) (range_km cruise : float) (extras : gmap string value) :
  try_table plane t = Ok (Some (seats, range_km, cruise, extras)) ->
  accept plane seats range_km cruise = true.
Proof.
  unfold try_table, reindex, bind. intros H.
  repeat case_match; simplify_eq; assumption.
Qed.

Lemma extract_table_spec_Ok (plane : AircraftSpec) (html : Document)
    (r : extraction) :
  extract_table_spec plane html = Ok r <->
  exists l1 t l2,
    doc_tables html = l1 ++ t :: l2 /\
    Forall (fun x => try_table plane x = Ok None) l1 /\
    try_table plane t = Ok (Some r).
Proof.
  unfold extract_table_spec, read_html.
  destruct (doc_tables html) as [|t0 ts] eqn:Hts.
  - simpl. split; [discriminate|].
    intros (l1 & t & l2 & Hl & _). destruct l1; discriminate.
  - change (bind (Ok (t0 :: ts)) ?f) with (f (t0 :: ts)).
    rewrite <- for_first_r_Some.
    destruct (for_first_r (try_table plane) (t0 :: ts)) as [[r'|]|e];
      simpl; split; congruence.
Qed.

Lemma extract_li_value_truthy (items : list (string * string))
    (kws : list string) (p : string -> result (option float))
    (skips : list string) (v : float) :
  extract_li_value items kws p skips = Ok (Some v) -> Float.truthy v = true.
Proof.
  unfold extract_li_value. intros H.
  apply for_first_r_Some in H. destruct H as (_ & k & _ & _ & _ & H).
  apply for_first_r_Some in H.
  destruct H as (_ & [label text] & _ & _ & _ & H).
  unfold bind in H. repeat case_match; simplify_eq; assumption.
Qed.

Lemma truthy_eqb (x : float) :
  Float.truthy x = true <-> Float.eqb x Float.zero = false.
Proof. unfold Float.truthy. apply negb_true_iff. Qed.

(** C1.  Table extraction returns a result only from a table of the
    document that passed every step, and such a result has a nonzero seat
    count or a cargo profile, a nonzero range and a nonzero cruise speed;
    when no table of the document passes, extraction raises and returns
    nothing.  The list path likewise never returns a zero range or cruise
    speed. *)
Theorem C1_table_acceptance (plane : AircraftSpec) (html : Document) :
  (forall seats range_km cruise extras,
      extract_table_spec plane html = Ok (seats, range_km, cruise, extras) ->
      (exists t, In t (doc_tables html) /\
                 try_table plane t = Ok (Some (seats, range_km, cruise, extras)))
      /\ (seats <> 0 \/ role plane = "cargo")
      /\ Float.eqb range_km Float.zero = false
      /\ Float.eqb cruise Float.zero = false)
  /\ ((forall t r, In t (doc_tables html) -> try_table plane t <> Ok (Some r)) ->
      raises (extract_table_spec plane html))
  /\ (forall seats range_km cruise extras,
        extract_list_spec plane html = Ok (seats, range_km, cruise, extras) ->
        Float.eqb range_km Float.zero = false
        /\ Float.eqb cruise Float.zero = false).
Proof.
  split; [|split].
  - intros seats range_km cruise extras H.
    apply extract_table_spec_Ok in H.
    destruct H as (l1 & t & l2 & Hl & _ & Ht).
    split.
    + exists t. split; [|exact Ht].
      rewrite Hl. apply in_or_app. right. left. reflexivity.
    + apply accept_spec. eapply try_table_accept. exact Ht.
  - intros Hnone.
    destruct (extract_table_spec plane html) as [r|e] eqn:H; [|exact I].
    apply extract_table_spec_Ok in H.
    destruct H as (l1 & t & l2 & Hl & _ & Ht).
    exfalso. apply (Hnone t r); [|exact Ht].
    rewrite Hl. apply in_or_app. right. left. reflexivity.
  - intros seats range_km cruise extras H.
    unfold extract_list_spec in H.
    inv_bind H. inv_bind H. inv_bind H. inv_bind H.
    destruct a0 as [r|]; [|discriminate].
    destruct a1 as [c|]; [|discriminate].
    inv_bind H. inv_bind H. injection H as <- <- <- <-.
    split; apply truthy_eqb; eapply extract_li_value_truthy; eassumption.
Qed.

Lemma C1_table_acceptance_witness :
  exists seats range_km cruise extras,
    extract_table_spec a320 a320_page = Ok (seats, range_km, cruise, extras)
    /\ (seats <> 0 \/ role a320 = "cargo")
    /\ Float.eqb range_km Float.zero = false
    /\ Float.eqb cruise Float.zero = false.
Proof.
  destruct (C1_table_acceptance a320 a320_page) as [H _].
  destruct (value_or (0, Float.zero, Float.zero, ∅)
                     (extract_table_spec a320 a320_page))
    as [[[seats range_km] cruise] extras] eqn:E.
  assert (Hx : extract_table_spec a320 a320_page
               = Ok (seats, range_km, cruise, extras)).
  { rewrite <- E. vm_refl. }
  exists seats, range_km, cruise, extras.
  split; [exact Hx|]. exact (proj2 (H seats range_km cruise extras Hx)).
Defined.

(** ** The data column (C8) *)


Lemma try_table_column (plane : AircraftSpec) (t : RawTable)
    (seats : Z) (range_km cruise : float) (extras : gmap string value) :
  try_table plane t = Ok (Some (seats, range_km, cruise, extras)) ->
  exists column range_val cruise_val rng spd,
    resolve_column (variant_column plane) (df_columns (frame t))
      = Ok (Some column)
    /\ collect_table_fields (frame t) column = Ok extras
    /\ find_row_value (frame t) column (range_keywords plane) [] = Ok range_val
    /\ parse_distance range_val = Ok rng
    /\ range_km = or_zero rng
    /\ find_row_value (frame t) column (cruise_keywords plane) [] = Ok cruise_val
    /\ parse_speed cruise_val = Ok spd
    /\ cruise = or_zero spd.
Proof.
  unfold try_table, reindex, bind. intros H.
  repeat case_match; simplify_eq; eauto 15.
Qed.





(** ** The extras hold no zero and no blank (C9) *)

Lemma dropped_false (v : value) : dropped v = false <-> nonzero_value v.
Proof.
  destruct v as [n|x|s]; simpl.
  - apply Z.eqb_neq.
  - tauto.
  - destruct (Str.strip s); simpl; split; congruence.
Qed.

Lemma collect_fields_stored (raw_of : FieldDef -> option string)
    (all fields : list FieldDef) (extras out : gmap string value) :
  (forall field, In field fields -> In field all) ->
  (forall k v, extras !! k = Some v -> stored raw_of all k v) ->
  collect_fields raw_of fields extras = Ok out ->
  forall k v, out !! k = Some v -> stored raw_of all k v.
Proof.
  revert extras. induction fields as [|field rest IH]; intros extras Hsub Hinv H.
  - simpl in H. injection H as <-. exact Hinv.
  - assert (Hrest : forall f, In f rest -> In f all).
    { intros f Hf. apply Hsub. right. exact Hf. }
    simpl in H. destruct (raw_of field) as [raw|] eqn:Hraw;
      [|exact (IH extras Hrest Hinv H)].
    unfold bind in H.
    destruct (parser field raw) as [[v0|]|e] eqn:Hp;
      [|exact (IH extras Hrest Hinv H)|discriminate].
    destruct (dropped v0) eqn:Hd; [exact (IH extras Hrest Hinv H)|].
    apply (IH (<[key field := v0]> extras) Hrest); [|exact H].
    intros k v Hk. apply lookup_insert_Some in Hk.
    destruct Hk as [[<- <-]|[_ Hk]]; [|exact (Hinv k v Hk)].
    exists field, raw. split; [apply Hsub; left; reflexivity|].
    split; [reflexivity|]. split; [exact Hraw|]. split; [exact Hp|].
    apply dropped_false. exact Hd.
Qed.


Lemma collect_table_fields_eq (df : DataFrame) (column : string) :
  collect_table_fields df column =
  collect_fields
    (fun field =>
       caught (find_row_value df column (keywords field) (skip field)))
    FIELD_DEFS ∅.
Proof. reflexivity. Qed.

Lemma collect_list_fields_eq (items : list (string * string)) :
  collect_list_fields items =
  collect_fields
    (fun field => find_in_list items (keywords field) (skip field))
    FIELD_DEFS ∅.
Proof. reflexivity. Qed.

Lemma collect_fields_from_empty (raw_of : FieldDef -> option string)
    (fields : list FieldDef) (out : gmap string value) :
  collect_fields raw_of fields ∅ = Ok out ->
  forall k v, out !! k = Some v -> stored raw_of fields k v.
Proof.
  intros H. apply (collect_fields_stored raw_of fields fields ∅ out).
  - auto.
  - intros k v Hk. rewrite lookup_empty in Hk. discriminate.
  - exact H.
Qed.

(** C9.  Every value in the extras built from a table or from a list is a
    value the registry parsed for that key, and it is neither a numeric
    zero nor a blank string. *)
Theorem C9_extras_nonzero (df : DataFrame) (column : string)
    (items : list (string * string)) :
  (forall extras : gmap string value,
     collect_table_fields df column = Ok extras ->
     forall (k : string) (v : value), extras !! k = Some v ->
       nonzero_value v /\
       exists (field : FieldDef) (raw : string),
         In field FIELD_DEFS /\ key field = k /\
         find_row_value df column (keywords field) (skip field) = Ok raw /\
         parser field raw = Ok (Some v))
  /\ (forall extras : gmap string value,
     collect_list_fields items = Ok extras ->
     forall (k : string) (v : value), extras !! k = Some v ->
       nonzero_value v /\
       exists (field : FieldDef) (raw : string),
         In field FIELD_DEFS /\ key field = k /\
         find_in_list items (keywords field) (skip field) = Some raw /\
         parser field raw = Ok (Some v)).
Proof.
  split; intros extras H k v Hk.
  - rewrite collect_table_fields_eq in H.
    generalize dependent FIELD_DEFS. intros fields H.
    destruct (collect_fields_from_empty _ _ _ H k v Hk)
      as (field & raw & Hin & Hkey & Hraw & Hp & Hnz).
    split; [exact Hnz|]. exists field, raw.
    split; [exact Hin|]. split; [exact Hkey|]. split; [|exact Hp].
    cbv beta in Hraw.
    destruct (find_row_value df column (keywords field) (skip field));
      simpl in Hraw; congruence.
  - rewrite collect_list_fields_eq in H.
    generalize dependent FIELD_DEFS. intros fields H.
    destruct (collect_fields_from_empty _ _ _ H k v Hk)
      as (field & raw & Hin & Hkey & Hraw & Hp & Hnz).
    split; [exact Hnz|]. exists field, raw.
    split; [exact Hin|]. split; [exact Hkey|]. split; [exact Hraw|exact Hp].
Qed.

Lemma C9_extras_nonzero_witness :
  let extras := value_or ∅ (collect_table_fields (frame a320_table) "A320") in
  collect_table_fields (frame a320_table) "A320" = Ok extras
  /\ extras !! "engine_type" = Some (VStr "CFM56-5B")
  /\ nonzero_value (VStr "CFM56-5B").
Proof.
  intros extras.
  assert (E : collect_table_fields (frame a320_table) "A320" = Ok extras)
    by vm_refl.
  assert (Hk : extras !! "engine_type" = Some (VStr "CFM56-5B"))
    by (vm_compute; reflexivity).
  split; [exact E|]. split; [exact Hk|].
  exact (proj1 (proj1 (C9_extras_nonzero _ _ []) extras E _ _ Hk)).
Defined.

(** ** Cargo records carry no seats (C5) *)

Lemma build_entry_Ok (fetch_html : string -> result Document)
    (plane : AircraftSpec) (entry : gmap string value) :
  build_entry fetch_html plane = Ok entry ->
  exists html seats range_km cruise extras turnaround fuel,
    fetch_html (wiki_page plane) = Ok html
    /\ (if String.eqb (spec_type plane) "table"
        then extract_table_spec plane html
        else extract_list_spec plane html)
       = Ok (seats, range_km, cruise, extras)
    /\ TURNAROUND_BY_CLASS !! aircraft_class plane = Some turnaround
    /\ let base : gmap string value :=
         extras ∪
         <["turnaround_min" := VInt turnaround]>
         (<["role" := VStr (role plane)]>
         (<["cruise_kmh" := VFloat (Float.round cruise 1)]>
         (<["seats" := VInt seats]>
         (<["range_km" := VFloat (Float.round range_km 1)]>
         (<["name" := VStr (display_name plane)]>
         (<["id" := VStr (id plane)]> ∅)))))) in
       let shown : gmap string value :=
         if String.eqb (role plane) "cargo" then
           <["seats" := VInt 0]>
           (delete "one_class_max_seats"
              (delete "two_class_seats" (delete "three_class_seats" base)))
         else base in
       compute_fuel_cost plane shown = Ok fuel
       /\ entry = <["fuel_cost_per_km" := VFloat fuel]> shown.
Proof.
  unfold build_entry. intros H.
  inv_bind H. inv_bind H.
  destruct a0 as [[[seats range_km] cruise] extras].
  inv_bind H.
  destruct (TURNAROUND_BY_CLASS !! aircraft_class plane) as [t|] eqn:Ht;
    [|discriminate].
  injection Ha1 as <-.
  inv_bind H. injection H as <-.
  exists a, seats, range_km, cruise, extras, t, a0.
  split; [exact Ha|]. split; [exact Ha0|]. split; [reflexivity|].
  split; [exact Ha1|reflexivity].
Qed.

(** C5.  The record built for a cargo profile has [seats] equal to 0 and
    none of the three class-seat keys, whatever the extras hold. *)
Theorem C5_cargo_suppression (fetch_html : string -> result Document)
    (plane : AircraftSpec) (entry : gmap string value) :
  role plane = "cargo" ->
  build_entry fetch_html plane = Ok entry ->
  entry !! "seats" = Some (VInt 0)
  /\ entry !! "three_class_seats" = None
  /\ entry !! "two_class_seats" = None
  /\ entry !! "one_class_max_seats" = None.
Proof.
  intros Hrole H. apply build_entry_Ok in H.
  destruct H as (html & seats & range_km & cruise & extras & t & fuel
                 & _ & _ & _ & _ & ->).
  rewrite Hrole. simpl String.eqb. cbv iota.
  repeat split.
  - rewrite lookup_insert_ne by discriminate. apply lookup_insert_eq.
  - rewrite !lookup_insert_ne by discriminate.
    rewrite !lookup_delete_ne by discriminate. apply lookup_delete_eq.
  - rewrite !lookup_insert_ne by discriminate.
    rewrite lookup_delete_ne by discriminate. apply lookup_delete_eq.
  - rewrite !lookup_insert_ne by discriminate. apply lookup_delete_eq.
Qed.

Lemma C5_cargo_suppression_witness :
  let extras :=
    value_or ∅ (collect_table_fields (frame b748f_table) "747-8F") in
  let entry := value_or ∅ (build_entry sample_pages b748f) in
  extras !! "three_class_seats" = Some (VInt 12)
  /\ build_entry sample_pages b748f = Ok entry
  /\ entry !! "seats" = Some (VInt 0)
  /\ entry !! "three_class_seats" = None
  /\ entry !! "two_class_seats" = None
  /\ entry !! "one_class_max_seats" = None.
Proof.
  intros extras entry.
  assert (E : build_entry sample_pages b748f = Ok entry) by vm_refl.
  split; [vm_compute; reflexivity|]. split; [exact E|].
  exact (C5_cargo_suppression sample_pages b748f entry eq_refl E).
Defined.

(** ** The batch stops at the first failure (C2) *)

Lemma build_all_Ok (fetch_html : string -> result Document)
    (planes : list AircraftSpec) (entries : list (gmap string value)) :
  build_all fetch_html planes = Ok entries <->
  Forall2 (fun p e => build_entry fetch_html p = Ok e) planes entries.
Proof.
  revert entries. induction planes as [|p planes IH]; intros entries; simpl.
  - split.
    + intros [= <-]. constructor.
    + inversion 1. reflexivity.
  - split.
    + intros H. inv_bind H. inv_bind H. injection H as <-.
      constructor; [exact Ha|]. apply IH. exact Ha0.
    + inversion 1 as [|p' e ps es Hp Hps]; subst.
      rewrite Hp. simpl. apply IH in Hps. rewrite Hps. reflexivity.
Qed.

Lemma build_all_Raise (fetch_html : string -> result Document)
    (finished : list AircraftSpec) (plane : AircraftSpec)
    (rest : list AircraftSpec) (e : exn) :
  Forall (fun p => ok (build_entry fetch_html p)) finished ->
  build_entry fetch_html plane = Raise e ->
  build_all fetch_html (finished ++ plane :: rest) = Raise e.
Proof.
  intros Hdone Hp. induction Hdone as [|p ps Hok _ IH]; simpl.
  - rewrite Hp. reflexivity.
  - destruct (build_entry fetch_html p) as [entry|e']; [|destruct Hok].
    simpl. rewrite IH. reflexivity.
Qed.

Lemma C2_counterexample :
  ok (build_entry sample_pages a320)
  /\ ok (build_entry sample_pages b738)
  /\ build_entry sample_pages a318 = Raise RuntimeError
  /\ main sample_pages [a320; a318; b738] = Raise RuntimeError
  /\ ~ batch_isolation.
Proof.
  assert (Ha : build_entry sample_pages a320
               = Ok (value_or ∅ (build_entry sample_pages a320)))
    by vm_refl.
  assert (Hm : main sample_pages [a320; a318; b738] = Raise RuntimeError)
    by (vm_compute; reflexivity).
  split; [rewrite Ha; exact I|].
  split; [vm_compute; exact I|].
  split; [vm_compute; reflexivity|].
  split; [exact Hm|].
  intros H.
  destruct (H sample_pages [a320; a318; b738] a320 _ (or_introl eq_refl) Ha)
    as (entries & Hentries & _).
  rewrite Hm in Hentries. discriminate Hentries.
Qed.

(** C2, as the code has it.  The run goes through the profiles in order
    of rank and has no handler around [build_entry]: it yields the records
    of all profiles, in that order, exactly when every profile can be
    built, and the first profile that fails ends the run with its
    exception, so that no later profile is processed and no record is
    written. *)
Theorem C2_batch_fail_fast (fetch_html : string -> result Document)
    (planes : list AircraftSpec) :
  (forall entries : list (gmap string value),
     main fetch_html planes = Ok entries <->
     Forall2 (fun p e => build_entry fetch_html p = Ok e)
             (sorted planes) entries)
  /\ (forall (finished : list AircraftSpec) (plane : AircraftSpec)
             (rest : list AircraftSpec) (e : exn),
        sorted planes = finished ++ plane :: rest ->
        Forall (fun p => ok (build_entry fetch_html p)) finished ->
        build_entry fetch_html plane = Raise e ->
        main fetch_html planes = Raise e).
Proof.
  split.
  - intros entries. unfold main. apply build_all_Ok.
  - intros finished plane rest e Hs Hdone Hp. unfold main. rewrite Hs.
    apply build_all_Raise; assumption.
Qed.

Lemma C2_batch_fail_fast_witness :
  main sample_pages [a320; b738; a318] = Raise RuntimeError
  /\ exists entries,
       main sample_pages [a320; b738] = Ok entries /\ length entries = 2%nat.
Proof.
  destruct (C2_batch_fail_fast sample_pages [a320; b738; a318]) as [_ Hfail].
  destruct (C2_batch_fail_fast sample_pages [a320; b738]) as [Hall _].
  split.
  - apply (Hfail [] a318 [b738; a320]).
    + reflexivity.
    + constructor.
    + vm_compute. reflexivity.
  - exists [value_or ∅ (build_entry sample_pages b738);
            value_or ∅ (build_entry sample_pages a320)].
    split; [|reflexivity].
    apply Hall. change (sorted [a320; b738]) with [b738; a320].
    repeat constructor; vm_compute; reflexivity.
Defined.

(** ** Speed parsing (C3) *)

(** C3.  [parse_speed] decides by the km/h pattern when it is found
    anywhere in the text, else by the mph pattern, else by the Mach
    pattern, whatever the order of the units in the text; "400 km/h"
    gives 400.0, "250 mph" gives 250 * 1.60934, within 0.01 of 402.34, and
    "Mach 0.85" gives 0.85 * 1225, within 0.01 of 1041.25. *)
Theorem C3_parse_speed :
  (forall text g,
     Re.search Pat.kmh (clean_text text) = Some g ->
     parse_speed text = let* x := group_float g in Ok (Some x))
  /\ (forall text g,
     Re.search Pat.kmh (clean_text text) = None ->
     Re.search Pat.mph (clean_text text) = Some g ->
     parse_speed text =
     let* x := group_float g in Ok (Some (Float.mul x (dec 160934 5))))
  /\ (forall text g,
     Re.search Pat.kmh (clean_text text) = None ->
     Re.search Pat.mph (clean_text text) = None ->
     Re.search Pat.mach (clean_text text) = Some g ->
     parse_speed text =
     let* x := group_float g in Ok (Some (Float.mul x (Float.of_Z 1225))))
  /\ (forall text,
     Re.search Pat.kmh (clean_text text) = None ->
     Re.search Pat.mph (clean_text text) = None ->
     Re.search Pat.mach (clean_text text) = None ->
     parse_speed text = Ok None)
  /\ parse_speed "400 km/h" = Ok (Some (Float.of_Z 400))
  /\ parse_speed "250 mph"
     = Ok (Some (Float.mul (Float.of_Z 250) (dec 160934 5)))
  /\ near (Float.mul (Float.of_Z 250) (dec 160934 5)) 40234 1
  /\ parse_speed "Mach 0.85"
     = Ok (Some (Float.mul (dec 85 2) (Float.of_Z 1225)))
  /\ near (Float.mul (dec 85 2) (Float.of_Z 1225)) 104125 1
  /\ parse_speed "Mach 0.85 (647 mph; 1,041 km/h)"
     = Ok (Some (Float.of_Z 1041)).
Proof.
  split; [|split; [|split; [|split; [|split; [|split; [|split; [|split;
    [|split]]]]]]]].
  - intros text g H. unfold parse_speed. cbn [first_unit]. rewrite H.
    reflexivity.
  - intros text g H1 H2. unfold parse_speed. cbn [first_unit].
    rewrite H1, H2. reflexivity.
  - intros text g H1 H2 H3. unfold parse_speed. cbn [first_unit].
    rewrite H1, H2, H3. reflexivity.
  - intros text H1 H2 H3. unfold parse_speed. cbn [first_unit].
    rewrite H1, H2, H3. reflexivity.
  - vm_compute. reflexivity.
  - vm_compute. reflexivity.
  - vm_compute. intros [=].
  - vm_compute. reflexivity.
  - vm_compute. intros [=].
  - vm_compute. reflexivity.
Qed.

Lemma C3_parse_speed_witness :
  parse_speed "515 MPH" = Ok (Some (Float.mul (Float.of_Z 515) (dec 160934 5)))
  /\ parse_speed "829 kmh (Mach 0.78)" = Ok (Some (Float.of_Z 829))
  /\ parse_speed "Mach 2" = Ok (Some (Float.of_Z 2450))
  /\ parse_speed "subsonic" = Ok None.
Proof.
  destruct C3_parse_speed as (Hkmh & Hmph & Hmach & Hnone & _).
  split; [|split; [|split]].
  - rewrite (Hmph "515 MPH" "515"); vm_compute; reflexivity.
  - rewrite (Hkmh "829 kmh (Mach 0.78)" "829"); vm_compute; reflexivity.
  - rewrite (Hmach "Mach 2" "2"); vm_compute; reflexivity.
  - apply Hnone; vm_compute; reflexivity.
Defined.

(** ** Keyword matcher (C4, C10) *)

Lemma for_first_ext {A B : Type} (f g : A -> option B) (l : list A) :
  Forall (fun x => f x = g x) l -> for_first f l = for_first g l.
Proof.
  induction 1 as [|x l Hx _ IH]; simpl; [reflexivity|].
  rewrite Hx, IH. reflexivity.
Qed.

Lemma for_first_filter {A B : Type} (p : A -> bool) (f : A -> option B)
    (l : list A) :
  for_first f (List.filter p l)
  = for_first (fun x => if p x then f x else None) l.
Proof.
  induction l as [|x l IH]; simpl; [reflexivity|].
  destruct (p x); simpl; rewrite IH; reflexivity.
Qed.

Lemma for_first_map {A B C : Type} (h : A -> B) (f : B -> option C)
    (l : list A) :
  for_first f (map h l) = for_first (fun x => f (h x)) l.
Proof.
  induction l as [|x l IH]; simpl; [reflexivity|].
  rewrite IH. reflexivity.
Qed.

Lemma lower_char_idem (c : ascii) :
  Str.lower_char (Str.lower_char c) = Str.lower_char c.
Proof.
  destruct c as [[] [] [] [] [] [] [] []]; vm_compute; reflexivity.
Qed.

Lemma lower_idem (s : string) : Str.lower (Str.lower s) = Str.lower s.
Proof.
  induction s as [|c s IH]; simpl; [reflexivity|].
  rewrite lower_char_idem, IH. reflexivity.
Qed.

Lemma build_list_items_lowercase (soup : Document) :
  Forall (fun item => lowercase (fst item)) (build_list_items soup).
Proof.
  unfold build_list_items.
  induction (doc_li soup) as [|[[bold|] text] lis IH]; simpl.
  - constructor.
  - constructor; [apply lower_idem|exact IH].
  - exact IH.
Qed.

Lemma find_in_list_first (items : list (string * string))
    (keywords skip_terms : list string) :
  Forall (fun item => lowercase (fst item)) items ->
  find_in_list items keywords skip_terms
  = first_label_match items keywords skip_terms.
Proof.
  intros Hlow. unfold find_in_list, first_label_match.
  apply for_first_ext. apply Forall_forall. intros key _.
  apply for_first_ext. eapply Forall_impl; [exact Hlow|].
  intros [label text] Hl. unfold lowercase in Hl. simpl in Hl.
  unfold label_match, contains_ci. simpl. rewrite Hl.
  destruct (any_in label skip_terms); simpl.
  - rewrite andb_false_r. reflexivity.
  - rewrite andb_true_r. reflexivity.
Qed.

Lemma row_lookup_first_usable (df : DataFrame) (column : string)
    (keywords skip_terms : list string) :
  row_lookup df column keywords skip_terms
  = first_label_match
      (List.filter (fun entry => usable (snd entry)) (rows_of df column))
      keywords skip_terms.
Proof.
  unfold row_lookup, first_label_match, rows_of.
  apply for_first_ext. apply Forall_forall. intros key _.
  rewrite for_first_filter, for_first_map.
  apply for_first_ext. apply Forall_forall. intros idx _. simpl.
  unfold label_match, contains_ci.
  destruct (Str.contains (Str.lower idx) (Str.lower key)); simpl.
  - destruct (any_in (Str.lower idx) skip_terms); simpl;
      destruct (usable (df_at df idx column)); reflexivity.
  - destruct (usable (df_at df idx column)); reflexivity.
Qed.

Lemma first_label_match_Some (entries : list (string * string))
    (keywords skip_terms : list string) (text : string) :
  first_label_match entries keywords skip_terms = Some text <->
  exists ks1 key ks2 es1 label es2,
    keywords = ks1 ++ key :: ks2
    /\ entries = es1 ++ (label, text) :: es2
    /\ Forall (fun k =>
         Forall (fun e => label_match (fst e) k skip_terms = false) entries)
         ks1
    /\ Forall (fun e => label_match (fst e) key skip_terms = false) es1
    /\ label_match label key skip_terms = true.
Proof.
  unfold first_label_match.
  set (step := fun key (entry : string * string) =>
         if label_match (fst entry) key skip_terms then Some (snd entry)
         else None).
  assert (Hnone : forall key e,
            step key e = None <-> label_match (fst e) key skip_terms = false).
  { intros key e. unfold step.
    destruct (label_match (fst e) key skip_terms); split; congruence. }
  split.
  - intros H. apply for_first_Some in H.
    destruct H as (ks1 & key & ks2 & Hk & Hks1 & H).
    apply for_first_Some in H.
    destruct H as (es1 & [label text'] & es2 & He & Hes1 & H).
    unfold step in H. simpl in H.
    destruct (label_match label key skip_terms) eqn:Hm; [|discriminate].
    injection H as ->.
    exists ks1, key, ks2, es1, label, es2.
    split; [exact Hk|]. split; [exact He|].
    split; [|split; [|exact Hm]].
    + eapply Forall_impl; [exact Hks1|]. intros k Hk'.
      apply for_first_None in Hk'.
      eapply Forall_impl; [exact Hk'|]. intros e. apply Hnone.
    + eapply Forall_impl; [exact Hes1|]. intros e. apply Hnone.
  - intros (ks1 & key & ks2 & es1 & label & es2 & Hk & He & Hks1 & Hes1 & Hm).
    apply for_first_Some. exists ks1, key, ks2.
    split; [exact Hk|]. split.
    + eapply Forall_impl; [exact Hks1|]. intros k Hk'.
      apply for_first_None.
      eapply Forall_impl; [exact Hk'|]. intros e. apply Hnone.
    + apply for_first_Some. exists es1, (label, text), es2.
      split; [exact He|]. split.
      * eapply Forall_impl; [exact Hes1|]. intros e. apply Hnone.
      * unfold step. simpl. rewrite Hm. reflexivity.
Qed.

Lemma C4_counterexample :
  row_lookup (frame range_table) "737-800" ["range"] [] = Some "5,000 km"
  /\ first_label_match (rows_of (frame range_table) "737-800") ["range"] []
     = Some "nan"
  /\ ~ first_entry_wins.
Proof.
  assert (H1 : row_lookup (frame range_table) "737-800" ["range"] []
               = Some "5,000 km") by (vm_compute; reflexivity).
  assert (H2 : first_label_match (rows_of (frame range_table) "737-800")
                 ["range"] [] = Some "nan") by (vm_compute; reflexivity).
  split; [exact H1|]. split; [exact H2|].
  intros [_ H].
  specialize (H (frame range_table) "737-800" ["range"] []).
  rewrite H1, H2 in H. discriminate H.
Qed.

(** C4, as the code has it.  On bullet items (whose labels are in lower
    case) the matcher returns the text of the first entry, keywords in
    declared order and entries in their order for each keyword, whose label
    contains the keyword in lower case and none of the exclusion terms.  On
    a table the rows with an empty or "nan" cell are passed over, and the
    first of the remaining rows whose label passes is returned; no row
    left is a [RuntimeError].  The seat search over "seat pitch" and
    "seating capacity: 180" excluding "pitch" returns the second row, which
    parses to 180. *)
Theorem C4_keyword_matcher :
  (forall items keywords skip_terms,
     Forall (fun item => lowercase (fst item)) items ->
     find_in_list items keywords skip_terms
     = first_label_match items keywords skip_terms)
  /\ (forall soup keywords skip_terms,
     find_in_list (build_list_items soup) keywords skip_terms
     = first_label_match (build_list_items soup) keywords skip_terms)
  /\ (forall df column keywords skip_terms,
     find_row_value df column keywords skip_terms
     = match first_label_match
               (List.filter (fun entry => usable (snd entry))
                            (rows_of df column))
               keywords skip_terms with
       | Some value => Ok value
       | None => Raise RuntimeError
       end)
  /\ (forall entries keywords skip_terms text,
     first_label_match entries keywords skip_terms = Some text <->
     exists ks1 key ks2 es1 label es2,
       keywords = ks1 ++ key :: ks2
       /\ entries = es1 ++ (label, text) :: es2
       /\ Forall (fun k =>
            Forall (fun e => label_match (fst e) k skip_terms = false) entries)
            ks1
       /\ Forall (fun e => label_match (fst e) key skip_terms = false) es1
       /\ label_match label key skip_terms = true)
  /\ find_in_list seat_rows ["seat"] ["pitch"] = Some "seating capacity: 180"
  /\ find_in_list seat_rows ["seat"] [] = Some "seat pitch"
  /\ parse_number "seating capacity: 180" = Ok (Some (Float.of_Z 180))
  /\ extract_li_value seat_rows ["seat"] parse_number ["pitch"]
     = Ok (Some (Float.of_Z 180)).
Proof.
  split; [|split; [|split; [|split; [|split; [|split; [|split]]]]]].
  - exact find_in_list_first.
  - intros soup keywords skip_terms. apply find_in_list_first.
    apply build_list_items_lowercase.
  - intros df column keywords skip_terms. unfold find_row_value.
    rewrite row_lookup_first_usable. reflexivity.
  - exact first_label_match_Some.
  - vm_compute. reflexivity.
  - vm_compute. reflexivity.
  - vm_compute. reflexivity.
  - vm_compute. reflexivity.
Qed.

Lemma C4_keyword_matcher_witness :
  find_in_list range_items ["cruise"; "range"] ["ferry"] = Some "Range: unknown"
  /\ first_label_match range_items ["range"] []  = Some "Range: unknown".
Proof.
  destruct C4_keyword_matcher as (Hlist & _ & _ & Hfirst & _).
  split.
  - rewrite (Hlist range_items ["cruise"; "range"] ["ferry"]).
    + vm_compute. reflexivity.
    + repeat constructor.
  - apply (Hfirst range_items ["range"] [] "Range: unknown").
    exists [], "range", [], [], "range",
      [("range", "Range: 0 km"); ("ferry range", "Ferry range: 2,935 nmi")].
    repeat split; constructor.
Defined.

Lemma for_first_r_ext {A B : Type} (f g : A -> result (option B))
    (l : list A) :
  Forall (fun x => f x = g x) l -> for_first_r f l = for_first_r g l.
Proof.
  induction 1 as [|x l Hx _ IH]; simpl; [reflexivity|].
  rewrite Hx, IH. reflexivity.
Qed.

Lemma extract_li_value_eq (items : list (string * string))
    (keywords : list string) (p : string -> result (option float))
    (skip_terms : list string) :
  extract_li_value items keywords p skip_terms
  = for_first_r (fun key => for_first_r (li_step p skip_terms key) items)
                keywords.
Proof.
  unfold extract_li_value.
  apply for_first_r_ext. apply Forall_forall. intros key _.
  apply for_first_r_ext. apply Forall_forall. intros [label text] _.
  reflexivity.
Qed.

Lemma extract_li_value_Some (items : list (string * string))
    (keywords : list string) (p : string -> result (option float))
    (skip_terms : list string) (v : float) :
  extract_li_value items keywords p skip_terms = Ok (Some v) <->
  exists ks1 key ks2 is1 item is2,
    keywords = ks1 ++ key :: ks2
    /\ items = is1 ++ item :: is2
    /\ Forall (fun k =>
         Forall (fun it => li_step p skip_terms k it = Ok None) items) ks1
    /\ Forall (fun it => li_step p skip_terms key it = Ok None) is1
    /\ li_step p skip_terms key item = Ok (Some v).
Proof.
  rewrite extract_li_value_eq. split.
  - intros H. apply for_first_r_Some in H.
    destruct H as (ks1 & key & ks2 & Hk & Hks1 & H).
    apply for_first_r_Some in H.
    destruct H as (is1 & item & is2 & Hi & His1 & H).
    exists ks1, key, ks2, is1, item, is2.
    split; [exact Hk|]. split; [exact Hi|].
    split; [|split; [exact His1|exact H]].
    eapply Forall_impl; [exact Hks1|]. intros k Hk'.
    apply for_first_r_None. exact Hk'.
  - intros (ks1 & key & ks2 & is1 & item & is2 & Hk & Hi & Hks1 & His1 & H).
    apply for_first_r_Some. exists ks1, key, ks2.
    split; [exact Hk|]. split.
    + eapply Forall_impl; [exact Hks1|]. intros k Hk'.
      apply for_first_r_None. exact Hk'.
    + apply for_first_r_Some. exists is1, item, is2. auto.
Qed.

Lemma li_step_Some (p : string -> result (option float))
    (skip_terms : list string) (key : string) (item : string * string)
    (v : float) :
  li_step p skip_terms key item = Ok (Some v) <->
  any_in (fst item) skip_terms = false
  /\ Str.contains (fst item) (Str.lower key) = true
  /\ p (snd item) = Ok (Some v)
  /\ Float.truthy v = true.
Proof.
  unfold li_step, bind.
  destruct (any_in (fst item) skip_terms);
    [split; [discriminate|intros (? & _); discriminate]|].
  destruct (Str.contains (fst item) (Str.lower key));
    [|split; [discriminate|intros (_ & ? & _); discriminate]].
  destruct (p (snd item)) as [[x|]|e].
  - destruct (Float.truthy x) eqn:Hx.
    + split; [intros [= <-]; auto|intros (_ & _ & [= <-] & _); reflexivity].
    + split; [discriminate|intros (_ & _ & [= <-] & Hv); congruence].
  - split; [discriminate|intros (_ & _ & ? & _); discriminate].
  - split; [discriminate|intros (_ & _ & ? & _); discriminate].
Qed.

Lemma li_step_no_value (p : string -> result (option float))
    (skip_terms : list string) (key : string) (item : string * string) :
  no_value (p (snd item)) -> li_step p skip_terms key item = Ok None.
Proof.
  unfold li_step, bind.
  intros [->|(x & -> & Hx)]; [|rewrite Hx];
    destruct (any_in (fst item) skip_terms);
    destruct (Str.contains (fst item) (Str.lower key)); reflexivity.
Qed.

Lemma for_first_drop {A B : Type} (f : A -> option B) (l1 l2 : list A) (x : A) :
  f x = None -> for_first f (l1 ++ x :: l2) = for_first f (l1 ++ l2).
Proof.
  intros Hx. induction l1 as [|y l1 IH]; simpl.
  - rewrite Hx. reflexivity.
  - rewrite IH. reflexivity.
Qed.

Lemma for_first_r_drop {A B : Type} (f : A -> result (option B))
    (l1 l2 : list A) (x : A) :
  f x = Ok None -> for_first_r f (l1 ++ x :: l2) = for_first_r f (l1 ++ l2).
Proof.
  intros Hx. induction l1 as [|y l1 IH]; simpl.
  - rewrite Hx. reflexivity.
  - rewrite IH. reflexivity.
Qed.

Lemma row_lookup_drop (df : DataFrame) (column : string)
    (keywords skip_terms : list string) (before after : list string)
    (idx : string) :
  usable (df_at df idx column) = false ->
  row_lookup (with_index df (before ++ idx :: after)) column keywords skip_terms
  = row_lookup (with_index df (before ++ after)) column keywords skip_terms.
Proof.
  intros Hu. unfold row_lookup. simpl.
  apply for_first_ext. apply Forall_forall. intros key _.
  apply for_first_drop. rewrite Hu.
  destruct (Str.contains (Str.lower idx) (Str.lower key)); [|reflexivity].
  destruct (any_in (Str.lower idx) skip_terms); reflexivity.
Qed.

Lemma row_lookup_Some (df : DataFrame) (column : string)
    (keywords skip_terms : list string) (v : string) :
  row_lookup df column keywords skip_terms = Some v <->
  exists ks1 key ks2 is1 idx is2,
    keywords = ks1 ++ key :: ks2
    /\ df_index df = is1 ++ idx :: is2
    /\ Forall (fun k =>
         Forall (fun i => label_match i k skip_terms = false
                          \/ usable (df_at df i column) = false)
                (df_index df)) ks1
    /\ Forall (fun i => label_match i key skip_terms = false
                        \/ usable (df_at df i column) = false) is1
    /\ label_match idx key skip_terms = true
    /\ usable (df_at df idx column) = true
    /\ v = df_at df idx column.
Proof.
  set (step := fun key idx =>
         if Str.contains (Str.lower idx) (Str.lower key) then
           if any_in (Str.lower idx) skip_terms then None
           else if usable (df_at df idx column)
                then Some (df_at df idx column) else None
         else None).
  assert (Hnone : forall key idx,
            step key idx = None <->
            label_match idx key skip_terms = false
            \/ usable (df_at df idx column) = false).
  { intros key idx. unfold step, label_match, contains_ci.
    destruct (Str.contains (Str.lower idx) (Str.lower key));
      destruct (any_in (Str.lower idx) skip_terms);
      destruct (usable (df_at df idx column)); simpl;
      split; auto; try discriminate; intros [H|H]; discriminate. }
  assert (Hsome : forall key idx,
            step key idx = Some v <->
            label_match idx key skip_terms = true
            /\ usable (df_at df idx column) = true
            /\ v = df_at df idx column).
  { intros key idx. unfold step, label_match, contains_ci.
    destruct (Str.contains (Str.lower idx) (Str.lower key));
      destruct (any_in (Str.lower idx) skip_terms);
      destruct (usable (df_at df idx column)); simpl;
      split; try discriminate; try (intros (? & ? & _); discriminate).
    - intros [= <-]. auto.
    - intros (_ & _ & ->). reflexivity. }
  assert (Heq : row_lookup df column keywords skip_terms
                = for_first (fun key => for_first (step key) (df_index df))
                            keywords) by reflexivity.
  rewrite Heq. clear Heq. split.
  - intros H. apply for_first_Some in H.
    destruct H as (ks1 & key & ks2 & Hk & Hks1 & H).
    apply for_first_Some in H.
    destruct H as (is1 & idx & is2 & Hi & His1 & H).
    apply Hsome in H. destruct H as (Hm & Hu & Hv).
    exists ks1, key, ks2, is1, idx, is2.
    split; [exact Hk|]. split; [exact Hi|].
    split; [|split; [|auto]].
    + eapply Forall_impl; [exact Hks1|]. intros k Hk'.
      apply for_first_None in Hk'.
      eapply Forall_impl; [exact Hk'|]. intros i. apply Hnone.
    + eapply Forall_impl; [exact His1|]. intros i. apply Hnone.
  - intros (ks1 & key & ks2 & is1 & idx & is2 & Hk & Hi & Hks1 & His1
            & Hm & Hu & Hv).
    apply for_first_Some. exists ks1, key, ks2.
    split; [exact Hk|]. split.
    + eapply Forall_impl; [exact Hks1|]. intros k Hk'.
      apply for_first_None.
      eapply Forall_impl; [exact Hk'|]. intros i. apply Hnone.
    + apply for_first_Some. exists is1, idx, is2.
      split; [exact Hi|]. split.
      * eapply Forall_impl; [exact His1|]. intros i. apply Hnone.
      * apply Hsome. auto.
Qed.

Lemma find_row_value_Ok (df : DataFrame) (column : string)
    (keywords skip_terms : list string) (v : string) :
  find_row_value df column keywords skip_terms = Ok v <->
  row_lookup df column keywords skip_terms = Some v.
Proof.
  unfold find_row_value.
  destruct (row_lookup df column keywords skip_terms);
    split; congruence.
Qed.

Lemma find_row_value_Raise (df : DataFrame) (column : string)
    (keywords skip_terms : list string) (e : exn) :
  find_row_value df column keywords skip_terms = Raise e <->
  e = RuntimeError /\ row_lookup df column keywords skip_terms = None.
Proof.
  unfold find_row_value.
  destruct (row_lookup df column keywords skip_terms); split;
    try discriminate; try (intros [_ ?]; discriminate).
  - intros [= <-]. auto.
  - intros [-> _]. reflexivity.
Qed.

Lemma row_lookup_None (df : DataFrame) (column : string)
    (keywords skip_terms : list string) :
  row_lookup df column keywords skip_terms = None <->
  Forall (fun k =>
    Forall (fun i => label_match i k skip_terms = false
                     \/ usable (df_at df i column) = false)
           (df_index df)) keywords.
Proof.
  unfold row_lookup. rewrite for_first_None.
  apply Forall_iff. intros key. rewrite for_first_None.
  apply Forall_iff. intros idx.
  unfold label_match, contains_ci.
  destruct (Str.contains (Str.lower idx) (Str.lower key));
    destruct (any_in (Str.lower idx) skip_terms);
    destruct (usable (df_at df idx column)); simpl;
    split; auto; try discriminate; intros [H|H]; discriminate.
Qed.

(** C10.  A table row whose cell is empty or "nan" does not take part in
    the row lookup, and a bullet item whose text does not parse or parses
    to zero does not take part in the value extraction: either can be
    removed without changing the result, so a later entry that matches is
    returned.  The value the row lookup returns is the cell of the first
    row, keywords in order and rows in order for each, whose label
    contains the keyword and no exclusion term and whose cell is usable;
    the rows before it fail the label test or have an unusable cell.  The
    value extracted from a list is the parsed, nonzero value of the first
    item, keywords in order and items in order for each, whose label
    passes and whose text parses to a nonzero value. *)
Theorem C10_unusable_entries_skipped :
  (forall df column keywords skip_terms before idx after,
     usable (df_at df idx column) = false ->
     find_row_value (with_index df (before ++ idx :: after)) column
                    keywords skip_terms
     = find_row_value (with_index df (before ++ after)) column
                      keywords skip_terms)
  /\ (forall df column keywords skip_terms v,
     find_row_value df column keywords skip_terms = Ok v <->
     exists ks1 key ks2 is1 idx is2,
       keywords = ks1 ++ key :: ks2
       /\ df_index df = is1 ++ idx :: is2
       /\ Forall (fun k =>
            Forall (fun i => label_match i k skip_terms = false
                             \/ usable (df_at df i column) = false)
                   (df_index df)) ks1
       /\ Forall (fun i => label_match i key skip_terms = false
                           \/ usable (df_at df i column) = false) is1
       /\ label_match idx key skip_terms = true
       /\ usable (df_at df idx column) = true
       /\ v = df_at df idx column)
  /\ (forall df column keywords skip_terms e,
     find_row_value df column keywords skip_terms = Raise e <->
     e = RuntimeError
     /\ Forall (fun k =>
          Forall (fun i => label_match i k skip_terms = false
                           \/ usable (df_at df i column) = false)
                 (df_index df)) keywords)
  /\ (forall p keywords skip_terms before item after,
     no_value (p (snd item)) ->
     extract_li_value (before ++ item :: after) keywords p skip_terms
     = extract_li_value (before ++ after) keywords p skip_terms)
  /\ (forall items keywords p skip_terms v,
     extract_li_value items keywords p skip_terms = Ok (Some v) <->
     exists ks1 key ks2 is1 item is2,
       keywords = ks1 ++ key :: ks2
       /\ items = is1 ++ item :: is2
       /\ Forall (fun k =>
            Forall (fun it => li_step p skip_terms k it = Ok None) items) ks1
       /\ Forall (fun it => li_step p skip_terms key it = Ok None) is1
       /\ any_in (fst item) skip_terms = false
       /\ Str.contains (fst item) (Str.lower key) = true
       /\ p (snd item) = Ok (Some v)
       /\ Float.truthy v = true)
  /\ find_row_value (frame range_table) "737-800" ["range"] []
     = Ok "5,000 km"
  /\ first_label_match (rows_of (frame range_table) "737-800") ["range"] []
     = Some "nan"
  /\ find_row_value (frame range_table) "737-800" ["range"] ["ferry"]
     = Raise RuntimeError
  /\ extract_li_value range_items ["range"] parse_distance []
     = Ok (Some (Float.mul (Float.of_Z 2935) (dec 1852 3)))
  /\ find_in_list range_items ["range"] [] = Some "Range: unknown".
Proof.
  split; [|split; [|split; [|split; [|split; [|split; [|split;
    [|split; [|split]]]]]]]].
  - intros df column keywords skip_terms before idx after Hu.
    unfold find_row_value. rewrite (row_lookup_drop _ _ _ _ _ _ _ Hu).
    reflexivity.
  - intros df column keywords skip_terms v.
    rewrite find_row_value_Ok. apply row_lookup_Some.
  - intros df column keywords skip_terms e.
    rewrite find_row_value_Raise, row_lookup_None. reflexivity.
  - intros p keywords skip_terms before item after Hno.
    rewrite !extract_li_value_eq.
    apply for_first_r_ext. apply Forall_forall. intros key _.
    apply for_first_r_drop. apply li_step_no_value. exact Hno.
  - intros items keywords p skip_terms v.
    rewrite extract_li_value_Some. split.
    + intros (ks1 & key & ks2 & is1 & item & is2 & Hk & Hi & H1 & H2 & H).
      apply li_step_Some in H.
      exists ks1, key, ks2, is1, item, is2. tauto.
    + intros (ks1 & key & ks2 & is1 & item & is2 & Hk & Hi & H1 & H2 & H).
      apply li_step_Some in H.
      exists ks1, key, ks2, is1, item, is2. tauto.
  - vm_compute. reflexivity.
  - vm_compute. reflexivity.
  - vm_compute. reflexivity.
  - vm_compute. reflexivity.
  - vm_compute. reflexivity.
Qed.

Lemma C10_unusable_entries_skipped_witness :
  find_row_value (frame range_table) "737-800" ["range"] []
  = find_row_value
      (with_index (frame range_table) ["Ferry range"; "Cruise"])
      "737-800" ["range"] []
  /\ find_row_value (frame a320_table) "A320" ["pitch"; "seat"] ["cockpit"]
     = Ok "150"
  /\ find_row_value (frame a320_table) "A320" ["crew"] ["cockpit"]
     = Raise RuntimeError
  /\ extract_li_value range_items ["range"] parse_distance []
     = extract_li_value [("ferry range", "Ferry range: 2,935 nmi")]
                        ["range"] parse_distance [].
Proof.
  destruct C10_unusable_entries_skipped as (Hrow & Hok & Hraise & Hli & _).
  split; [|split; [|split]].
  - apply (Hrow (frame range_table) "737-800" ["range"] []
                [] "Range" ["Ferry range"; "Cruise"]).
    vm_compute. reflexivity.
  - apply Hok.
    exists ["pitch"], "seat", [], ["Cockpit crew"; "Seat pitch"],
           "2-class seats",
           ["Length"; "MTOW"; "Range"; "Cruise speed"; "Engines"].
    split; [reflexivity|]. split; [reflexivity|].
    split; [|split; [|split; [|split]]].
    + constructor; [|constructor].
      repeat (apply Forall_cons_2;
              [first [left; reflexivity | right; reflexivity]|]).
      apply Forall_nil_2.
    + repeat (apply Forall_cons_2;
              [first [left; reflexivity | right; reflexivity]|]).
      apply Forall_nil_2.
    + reflexivity.
    + reflexivity.
    + reflexivity.
  - apply Hraise. split; [reflexivity|].
    constructor; [|constructor].
    repeat (apply Forall_cons_2;
            [first [left; reflexivity | right; reflexivity]|]).
    apply Forall_nil_2.
  - transitivity (extract_li_value
                    [("range", "Range: 0 km");
                     ("ferry range", "Ferry range: 2,935 nmi")]
                    ["range"] parse_distance []).
    + apply (Hli parse_distance ["range"] [] [] ("range", "Range: unknown")).
      left. vm_compute. reflexivity.
    + apply (Hli parse_distance ["range"] [] [] ("range", "Range: 0 km")).
      right. exists (S754_zero false). split; vm_compute; reflexivity.
Defined.

(** ** Conversion of a positive integer to a float *)


Lemma shr_1_m (r : shr_record) :
  0 <= shr_m r -> shr_m (shr_1 r) = shr_m r / 2.
Proof.
  destruct r as [m b s]. cbn [shr_m]. intros Hm.
  destruct m as [|[p|p|]|p]; cbn [shr_1 shr_m];
    first [ reflexivity
          | apply Z.div_unique with 1; lia
          | apply Z.div_unique with 0; lia
          | lia ].
Qed.

Lemma iter_shr_1_m (p : positive) (r : shr_record) :
  0 <= shr_m r ->
  shr_m (SpecFloat.iter_pos shr_1 p r) = shr_m r / 2 ^ Zpos p.
Proof.
  revert r. induction p as [p IH|p IH|]; intros r Hr.
  - change (SpecFloat.iter_pos shr_1 p~1 r)
      with (SpecFloat.iter_pos shr_1 p (SpecFloat.iter_pos shr_1 p (shr_1 r))).
    assert (H1 : 0 <= shr_m (shr_1 r)).
    { rewrite shr_1_m by exact Hr. apply Z.div_pos; lia. }
    assert (H2 : 0 <= shr_m (SpecFloat.iter_pos shr_1 p (shr_1 r))).
    { rewrite IH by exact H1. apply Z.div_pos; lia. }
    rewrite IH by exact H2. rewrite IH by exact H1.
    rewrite shr_1_m by exact Hr.
    rewrite !Z.div_div by lia. f_equal.
    replace (Z.pos p~1) with (Z.succ (Z.pos p + Z.pos p)) by lia.
    rewrite Z.pow_succ_r, Z.pow_add_r by lia. lia.
  - change (SpecFloat.iter_pos shr_1 p~0 r)
      with (SpecFloat.iter_pos shr_1 p (SpecFloat.iter_pos shr_1 p r)).
    assert (H2 : 0 <= shr_m (SpecFloat.iter_pos shr_1 p r)).
    { rewrite IH by exact Hr. apply Z.div_pos; lia. }
    rewrite IH by exact H2. rewrite IH by exact Hr.
    rewrite !Z.div_div by lia. f_equal.
    replace (Z.pos p~0) with (Z.pos p + Z.pos p) by lia.
    rewrite Z.pow_add_r by lia. lia.
  - change (SpecFloat.iter_pos shr_1 1 r) with (shr_1 r).
    rewrite shr_1_m by exact Hr. reflexivity.
Qed.

Lemma shr_record_of_loc_m (m : Z) (l : location) :
  shr_m (shr_record_of_loc m l) = m.
Proof. destruct l as [|[]]; reflexivity. Qed.






(** ** Fuel cost *)



Lemma is_true_false (o : option value) :
  is_true o = false ->
  truthy (default (VInt 0) o) = false /\ or_else o None = None
  /\ forall b, or_else o b = b.
Proof.
  destruct o as [v|]; simpl.
  - intros ->. auto.
  - auto.
Qed.

Lemma compute_fuel_cost_eq (plane : AircraftSpec) (data : gmap string value)
    (kind : string) (factor : float) :
  FUEL_PROFILES !! fuel_profile plane = Some (kind, factor) ->
  compute_fuel_cost plane data =
  let* base :=
    if String.eqb kind "seats" then
      let seats := default (VInt 0) (data !! "seats") in
      to_float (if truthy seats then seats else VInt 0)
    else if String.eqb kind "payload" then
      match or_else (data !! "max_payload_kg") (data !! "mtow_kg") with
      | Some v => if truthy v then to_float v else Ok Float.zero
      | None => Ok Float.zero
      end
    else Ok Float.zero in
  let* base :=
    if Float.leb base Float.zero && is_true (data !! "seats") then
      match data !! "seats" with
      | Some v => to_float v
      | None => Raise KeyError
      end
    else Ok base in
  if Float.leb base Float.zero then Ok Float.zero
  else Ok (Float.round (Float.mul base factor) 2).
Proof. intros H. unfold compute_fuel_cost. rewrite H. reflexivity. Qed.



Lemma fuel_zero (plane : AircraftSpec) (data : gmap string value)
    (kind : string) (factor : float) :
  FUEL_PROFILES !! fuel_profile plane = Some (kind, factor) ->
  (kind = "seats" \/
   kind = "payload" /\ is_true (data !! "max_payload_kg") = false
                    /\ is_true (data !! "mtow_kg") = false) ->
  is_true (data !! "seats") = false ->
  compute_fuel_cost plane data = Ok Float.zero.
Proof.
  intros Hp Hk Hs. rewrite (compute_fuel_cost_eq _ _ _ _ Hp).
  destruct Hk as [->|(-> & Hpay & Hmtow)].
  - change (String.eqb "seats" "seats") with true. cbv iota.
    destruct (is_true_false _ Hs) as (Ht & _ & _). cbv zeta. rewrite Ht.
    change (to_float (VInt 0)) with (Ok Float.zero). cbn [bind].
    rewrite Hs. rewrite andb_false_r. cbn [bind]. reflexivity.
  - change (String.eqb "payload" "seats") with false.
    change (String.eqb "payload" "payload") with true. cbv iota.
    destruct (is_true_false _ Hpay) as (_ & _ & Hor). rewrite Hor.
    assert (Hz : match data !! "mtow_kg" with
                 | Some v => if truthy v then to_float v else Ok Float.zero
                 | None => Ok Float.zero
                 end = Ok Float.zero).
    { destruct (data !! "mtow_kg") as [v|]; [|reflexivity].
      simpl in Hmtow. rewrite Hmtow. reflexivity. }
    rewrite Hz. cbn [bind]. rewrite Hs. rewrite andb_false_r.
    cbn [bind]. reflexivity.
Qed.

(** ** Parsers that raise (C7) *)

(** C7, at inputs that break it.  A captured number with more than one
    point, or a Mach number followed by the point that ends a sentence, is
    handed to [float], which raises [ValueError]: every parser but
    [parse_number] and [parse_distance] has such inputs. *)
Theorem C7_parsers_raise :
  parse_speed "Mach 0.85." = Raise ValueError
  /\ parse_speed "Mach 1.2.3" = Raise ValueError
  /\ parse_length "1.2.3 m" = Raise ValueError
  /\ parse_area "1.2.3 m2" = Raise ValueError
  /\ parse_mass "1.234.567 kg" = Raise ValueError
  /\ parse_volume "1.2.3 m3" = Raise ValueError
  /\ parse_fuel_volume "1.234.567 L" = Raise ValueError
  /\ parse_force "1.2.3 kN" = Raise ValueError.
Proof. repeat split; vm_compute; reflexivity. Qed.

(** ** What the patterns capture *)

Lemma star_inv {A : Type} (p : ascii -> bool) (s : string)
    (k : string -> option A) (x : A) :
  Re.star p s k = Some x ->
  exists pre s', s = (pre ++ s')%string /\ all_chars p pre = true /\ k s' = Some x.
Proof.
  induction s as [|c s IH]; simpl.
  - intros H. exists "", "". auto.
  - destruct (p c) eqn:Hc.
    + destruct (Re.star p s k) as [y|] eqn:Hs.
      * intros [= ->]. destruct (IH eq_refl) as (pre & s' & -> & Hp & Hk).
        exists (String c pre), s'. simpl. rewrite Hc, Hp. auto.
      * intros H. exists "", (String c s). auto.
    + intros H. exists "", (String c s). auto.
Qed.

Lemma run_nogroup {A : Type} (r : Re.regex) (s : string) (cap : option string)
    (k : string -> option string -> option A) (x : A) :
  nogroup r = true -> Re.run r s cap k = Some x ->
  exists s', k s' cap = Some x.
Proof.
  revert s cap k. induction r as [|p|p|r1 IH1 r2 IH2|r1 IH1 r2 IH2|r IH|p];
    intros s cap k Hn H; simpl in *.
  - eauto.
  - destruct s as [|c s]; [discriminate|].
    destruct (p c); [eauto|discriminate].
  - apply star_inv in H. destruct H as (_ & s' & _ & _ & H). eauto.
  - apply andb_true_iff in Hn. destruct Hn as [Hn1 Hn2].
    apply (IH1 _ _ _ Hn1) in H. destruct H as (s1 & H).
    apply (IH2 _ _ _ Hn2) in H. exact H.
  - apply andb_true_iff in Hn. destruct Hn as [Hn1 Hn2].
    destruct (Re.run r1 s cap k) as [y|] eqn:H1.
    + injection H as ->. exact (IH1 _ _ _ Hn1 H1).
    + exact (IH2 _ _ _ Hn2 H).
  - discriminate.
  - destruct s as [|c s]; [eauto|]. destruct (p c); [discriminate|eauto].
Qed.

Lemma take_prefix (pre s' : string) :
  Str.take (String.length (pre ++ s')%string - String.length s') (pre ++ s')%string = pre.
Proof.
  induction pre as [|c pre IH]; simpl.
  - rewrite Nat.sub_diag. destruct s'; reflexivity.
  - assert (Hlen : (String.length (pre ++ s')%string
                    = String.length pre + String.length s')%nat).
    { clear. induction pre; simpl; [reflexivity|]. rewrite IHpre. reflexivity. }
    rewrite Hlen in *.
    replace (S (String.length pre + String.length s') - String.length s')%nat
      with (S (String.length pre + String.length s' - String.length s'))%nat by lia.
    simpl. f_equal. exact IH.
Qed.

Lemma run_int_group {A : Type} (s : string) (cap : option string)
    (k : string -> option string -> option A) (x : A) :
  Re.run Pat.int_group s cap k = Some x ->
  exists g s', int_numeral g /\ s = (g ++ s')%string /\ k s' (Some g) = Some x.
Proof.
  unfold Pat.int_group. simpl.
  destruct s as [|c s]; [discriminate|].
  destruct (Str.is_digit c) eqn:Hc; [|discriminate].
  intros H. apply star_inv in H. destruct H as (pre & s' & -> & Hp & H).
  exists (String c pre), s'. split; [|split].
  - exists c, pre. auto.
  - reflexivity.
  - change (String c (pre ++ s')%string) with ((String c pre) ++ s')%string in H.
    rewrite take_prefix in H. exact H.
Qed.

Lemma search_inv (r : Re.regex) (s g : string) :
  Re.search r s = Some g ->
  exists skipped s1 rest cap,
    s = (skipped ++ s1)%string /\ Re.match_at r s1 = Some (rest, cap) /\
    g = default EmptyString cap.
Proof.
  induction s as [|c s IH]; simpl.
  - destruct (Re.match_at r "") as [[rest cap]|] eqn:Hm; [|discriminate].
    intros [= <-]. exists "", "", rest, cap. auto.
  - destruct (Re.match_at r (String c s)) as [[rest cap]|] eqn:Hm.
    + intros [= <-]. exists "", (String c s), rest, cap. auto.
    + intros H. destruct (IH H) as (sk & s1 & rest & cap & -> & Hm' & Hg).
      exists (String c sk), s1, rest, cap. auto.
Qed.

Lemma search_int_group (tail : Re.regex) (s g : string) :
  nogroup tail = true ->
  Re.search (Re.Seq Pat.int_group tail) s = Some g -> int_numeral g.
Proof.
  intros Hn H. apply search_inv in H.
  destruct H as (_ & s1 & rest & cap & _ & Hm & ->).
  unfold Re.match_at in Hm.
  change (Re.run (Re.Seq Pat.int_group tail) s1 None
            (fun s' cap => Some (s', cap)))
    with (Re.run Pat.int_group s1 None
            (fun s' cap' => Re.run tail s' cap' (fun s' cap => Some (s', cap))))
    in Hm.
  apply run_int_group in Hm. destruct Hm as (g & s' & Hg & _ & Hm).
  apply (run_nogroup _ _ _ _ _ Hn) in Hm. destruct Hm as (s'' & Hm).
  injection Hm as _ <-. exact Hg.
Qed.

Lemma search_number (s g : string) :
  Re.search Pat.number s = Some g -> int_numeral g.
Proof.
  intros H. apply search_inv in H.
  destruct H as (_ & s1 & rest & cap & _ & Hm & ->).
  unfold Re.match_at, Pat.number in Hm.
  apply run_int_group in Hm. destruct Hm as (g & s' & Hg & _ & Hm).
  injection Hm as _ <-. exact Hg.
Qed.

Lemma scan_digits (s : string) (m : Z) (k : nat) (nd : nat) :
  all_chars Str.is_digit s = true ->
  (s <> "" \/ (0 < nd)%nat) ->
  exists m', Float.scan s m k false nd = Some (m', k) /\ (0 <= m -> 0 <= m').
Proof.
  revert m nd. induction s as [|c s IH]; intros m nd Hall Hne; simpl.
  - destruct Hne as [Hne|Hnd]; [congruence|].
    destruct nd; [lia|]. eauto.
  - simpl in Hall. apply andb_true_iff in Hall. destruct Hall as [Hc Hs].
    rewrite Hc.
    destruct (IH (10 * m + (Z.of_N (Str.code c) - 48)) (S nd) Hs) as (m' & Hm' & Hpos).
    { right. lia. }
    exists m'. split; [exact Hm'|]. intros Hm. apply Hpos.
    unfold Str.is_digit in Hc. apply andb_true_iff in Hc. destruct Hc as [Hlo _].
    apply N.leb_le in Hlo. lia.
Qed.

Lemma remove_commas_digits (s : string) :
  all_chars (fun x => Str.is_digit x || Pat.comma x) s = true ->
  all_chars Str.is_digit (Str.remove_char "," s) = true.
Proof.
  induction s as [|c s IH]; simpl; [reflexivity|].
  intros H. apply andb_true_iff in H. destruct H as [Hc Hs].
  destruct (Ascii.eqb c ",") eqn:Hcomma; [exact (IH Hs)|].
  simpl. rewrite (IH Hs), andb_true_r.
  unfold Pat.comma in Hc. rewrite Hcomma, orb_false_r in Hc. exact Hc.
Qed.

Lemma group_float_int (g : string) :
  int_numeral g -> exists n, 0 <= n /\ group_float g = Ok (Float.of_decimal n 0).
Proof.
  intros (c & rest & -> & Hc & Hrest).
  unfold group_float, Float.of_str. simpl Str.remove_char.
  assert (Hnc : Ascii.eqb c "," = false).
  { destruct (Ascii.eqb_spec c ","); [subst; discriminate|reflexivity]. }
  rewrite Hnc.
  destruct (scan_digits (String c (Str.remove_char "," rest)) 0 0 0) as (m & Hm & Hpos).
  { simpl. rewrite Hc. apply remove_commas_digits. exact Hrest. }
  { left. discriminate. }
  rewrite Hm. exists m. split; [lia|reflexivity].
Qed.

(** ** Parsed numbers are never negative *)

Lemma shr_fexp_nonneg (m e : Z) (l : location) :
  0 <= m -> 0 <= shr_m (fst (shr_fexp 53 1024 m e l)).
Proof.
  intros Hm. unfold shr_fexp, shr.
  destruct (fexp 53 1024 (Zdigits2 m + e) - e) as [|n|n]; simpl.
  - rewrite shr_record_of_loc_m. exact Hm.
  - rewrite iter_shr_1_m by (rewrite shr_record_of_loc_m; exact Hm).
    rewrite shr_record_of_loc_m. apply Z.div_pos; [exact Hm|].
    apply Z.pow_pos_nonneg; lia.
  - rewrite shr_record_of_loc_m. exact Hm.
Qed.

Lemma round_nearest_even_nonneg (m : Z) (l : location) :
  0 <= m -> 0 <= round_nearest_even m l.
Proof.
  intros Hm. unfold round_nearest_even.
  destruct l as [|[]]; try lia. destruct (Z.even m); lia.
Qed.

Lemma binary_round_aux_nonneg (m e : Z) (l : location) :
  0 <= m -> nonneg_float (binary_round_aux 53 1024 false m e l).
Proof.
  intros Hm. unfold binary_round_aux.
  pose proof (shr_fexp_nonneg m e l Hm) as H1.
  destruct (shr_fexp 53 1024 m e l) as [mrs' e']. simpl in H1.
  pose proof (round_nearest_even_nonneg _ (loc_of_shr_record mrs') H1) as H2.
  pose proof (shr_fexp_nonneg _ e' loc_Exact H2) as H3.
  destruct (shr_fexp 53 1024 _ e' loc_Exact) as [mrs'' e'']. simpl in H3.
  destruct (shr_m mrs'') as [|q|q]; try lia; [exact I|].
  destruct (e'' <=? 1024 - 53); exact I.
Qed.

Lemma of_decimal_nonneg (n : Z) (k : nat) :
  nonneg_float (Float.of_decimal n k).
Proof.
  unfold Float.of_decimal. destruct n as [|p|p]; try exact I.
  unfold SFdiv, SFdiv_core_binary, Float.prec, Float.emax.
  set (q := Z.to_pos (10 ^ Z.of_nat k)).
  set (m' := match _ - _ - _ with Z.pos _ => _ | Z0 => Z.pos p | Z.neg _ => 0 end).
  assert (Hm' : 0 <= m').
  { unfold m'. match goal with |- context [match ?s with _ => _ end] => destruct s end;
      try lia. apply Z.shiftl_nonneg. lia. }
  pose proof (Z.div_pos m' (Z.pos q) Hm' ltac:(lia)) as Hq.
  unfold Z.div in Hq.
  destruct (Z.div_eucl m' (Z.pos q)) as [qq r]. simpl in Hq.
  apply binary_round_aux_nonneg. exact Hq.
Qed.

Lemma scan_nonneg (s : string) (m : Z) (k : nat) (dot : bool) (nd : nat)
    (m' : Z) (k' : nat) :
  Float.scan s m k dot nd = Some (m', k') -> 0 <= m -> 0 <= m'.
Proof.
  revert m k dot nd. induction s as [|c s IH]; intros m k dot nd; simpl.
  - destruct nd; [discriminate|]. intros [= <- _]. auto.
  - destruct (Str.is_digit c) eqn:Hc.
    + intros H Hm. apply (IH _ _ _ _ H).
      unfold Str.is_digit in Hc. apply andb_true_iff in Hc.
      destruct Hc as [Hlo _]. apply N.leb_le in Hlo. lia.
    + destruct (Ascii.eqb c "."); [|discriminate].
      destruct dot; [discriminate|]. apply IH.
Qed.

Lemma group_float_inv (g : string) (r : result float) :
  group_float g = r ->
  match r with
  | Ok x => nonneg_float x
  | Raise e => e = ValueError
  end.
Proof.
  intros <-. unfold group_float, Float.of_str.
  destruct (Float.scan _ 0 0 false 0) as [[m k]|]; [|reflexivity].
  apply of_decimal_nonneg.
Qed.

Lemma mul_factor_nonneg (x f : float) :
  nonneg_float x -> finite_factor (Some f) ->
  nonneg_float (Float.mul x f).
Proof.
  destruct x as [[]|[]| |[] mx ex]; simpl; try tauto;
    destruct f as [[]|[]| |[] mf ef]; simpl; try tauto.
  intros _ _. apply binary_round_aux_nonneg. lia.
Qed.

Lemma first_unit_inv (alts : list unit_alt) (text : string) :
  Forall (fun alt => finite_factor (snd alt)) alts ->
  match first_unit alts text with
  | Ok (Some x) => nonneg_float x
  | Ok None => True
  | Raise e => e = ValueError
  end.
Proof.
  induction 1 as [|[r f] alts Hf _ IH]; simpl; [exact I|].
  destruct (Re.search r text) as [g|]; [|exact IH].
  pose proof (group_float_inv g _ eq_refl) as Hg.
  destruct (group_float g) as [x|e]; simpl; [|exact Hg].
  destruct f as [f|]; [|exact Hg].
  apply mul_factor_nonneg; assumption.
Qed.

Lemma first_unit_int_ok (alts : list unit_alt) (text : string) :
  Forall (fun alt => int_pattern (fst alt)) alts ->
  exists r, first_unit alts text = Ok r.
Proof.
  induction 1 as [|[r f] alts Hr _ IH]; simpl; [eauto|].
  destruct (Re.search r text) as [g|] eqn:Hs; [|exact IH].
  assert (Hg : int_numeral g).
  { destruct Hr as [Hr|(tail & Hr & Hn)]; simpl in Hr; subst r.
    - exact (search_number _ _ Hs).
    - exact (search_int_group _ _ _ Hn Hs). }
  destruct (group_float_int g Hg) as (n & _ & ->). simpl. eauto.
Qed.

Lemma star_some {A : Type} (p : ascii -> bool) (s : string)
    (k : string -> option A) :
  (forall s', k s' <> None) -> Re.star p s k <> None.
Proof.
  intros Hk. induction s as [|c s IH]; simpl; [apply Hk|].
  destruct (p c); [|apply Hk].
  destruct (Re.star p s k); [discriminate|contradiction].
Qed.

Lemma search_number_None (s : string) :
  Re.search Pat.number s = None <->
  all_chars (fun c => negb (Str.is_digit c)) s = true.
Proof.
  induction s as [|c s IH].
  - simpl. split; reflexivity.
  - change (Re.search Pat.number (String c s))
      with (match Re.match_at Pat.number (String c s) with
            | Some (_, cap) => Some (default EmptyString cap)
            | None => Re.search Pat.number s
            end).
    unfold Re.match_at, Pat.number, Pat.int_group.
    simpl Re.run. simpl all_chars.
    destruct (Str.is_digit c) eqn:Hc; simpl.
    + match goal with
      | |- context [Re.star ?p ?s ?k] =>
          pose proof (star_some p s k ltac:(discriminate)) as Hs;
          destruct (Re.star p s k) as [[rest cap]|]
      end; [|contradiction].
      split; discriminate.
    + exact IH.
Qed.

(** ** The unit parsers: what they return and what they raise *)

Ltac int_pattern_tac :=
  first [ left; reflexivity
        | right; eexists; split; [reflexivity|reflexivity] ].

Ltac each tac := repeat (apply Forall_cons_2; [tac|]); apply Forall_nil_2.

Ltac factor_tac := vm_compute; exact I.

Lemma parse_number_ok (text : string) : exists r, parse_number text = Ok r.
Proof. apply first_unit_int_ok. each int_pattern_tac. Qed.

Lemma parse_number_nonneg (text : string) (x : float) :
  parse_number text = Ok (Some x) -> nonneg_float x.
Proof.
  intros Hx.
  pose proof (first_unit_inv [(Pat.number, None)] (clean_text text)) as H.
  unfold parse_number in Hx. rewrite Hx in H. apply H. each factor_tac.
Qed.

Lemma parse_distance_ok (text : string) :
  exists r, parse_distance text = Ok r.
Proof. apply first_unit_int_ok. each int_pattern_tac. Qed.

Lemma parse_distance_nonneg (text : string) (x : float) :
  parse_distance text = Ok (Some x) -> nonneg_float x.
Proof.
  intros Hx.
  pose proof (first_unit_inv
                [(Pat.km, None); (Pat.nmi, Some (dec 1852 3));
                 (Pat.mi, Some (dec 160934 5))] (clean_text text)) as H.
  unfold parse_distance in Hx. rewrite Hx in H. apply H. each factor_tac.
Qed.

Lemma parse_speed_inv (text : string) :
  match parse_speed text with
  | Ok (Some x) => nonneg_float x
  | Ok None => True
  | Raise e => e = ValueError
  end.
Proof. apply first_unit_inv. each factor_tac. Qed.

Lemma parse_speed_raise (text : string) (e : exn) :
  parse_speed text = Raise e -> e = ValueError.
Proof. intros H. pose proof (parse_speed_inv text) as Hi. rewrite H in Hi. exact Hi. Qed.

Lemma parse_speed_nonneg (text : string) (x : float) :
  parse_speed text = Ok (Some x) -> nonneg_float x.
Proof. intros H. pose proof (parse_speed_inv text) as Hi. rewrite H in Hi. exact Hi. Qed.

(** X1.  [parse_number] never raises; it finds no number exactly when the
    cleaned text has no digit; a number it returns is not negative. *)
Theorem parse_number_total (text : string) :
  (exists r, parse_number text = Ok r)
  /\ (parse_number text = Ok None <->
      all_chars (fun c => negb (Str.is_digit c)) (clean_text text) = true)
  /\ (forall x, parse_number text = Ok (Some x) -> nonneg_float x).
Proof.
  split; [|split].
  - apply parse_number_ok.
  - rewrite <- search_number_None. unfold parse_number. cbn [first_unit].
    destruct (Re.search Pat.number (clean_text text)) as [g|] eqn:Hs.
    + destruct (group_float_int g (search_number _ _ Hs)) as (n & _ & ->).
      simpl. split; discriminate.
    + split; reflexivity.
  - apply parse_number_nonneg.
Qed.

Lemma parse_number_total_witness :
  parse_number "no figure given[4]" = Ok None
  /\ nonneg_float (Float.of_Z 180).
Proof.
  destruct (parse_number_total "no figure given[4]") as (_ & Hnone & _).
  destruct (parse_number_total "seating capacity: 180") as (_ & _ & Hpos).
  split.
  - apply Hnone. vm_compute. reflexivity.
  - apply Hpos. vm_compute. reflexivity.
Defined.

(** X2.  [parse_distance] never raises, and a distance it returns is not
    negative. *)
Theorem parse_distance_total (text : string) :
  (exists r, parse_distance text = Ok r)
  /\ (forall x, parse_distance text = Ok (Some x) -> nonneg_float x).
Proof.
  split.
  - apply parse_distance_ok.
  - apply parse_distance_nonneg.
Qed.

Lemma parse_distance_total_witness :
  nonneg_float (Float.mul (Float.of_Z 2935) (dec 1852 3)).
Proof.
  destruct (parse_distance_total "Ferry range: 2,935 nmi") as (_ & Hpos).
  apply Hpos. vm_compute. reflexivity.
Defined.

(** X3.  [parse_speed] returns a speed whenever the text has a km/h or an
    mph figure; it can only raise [ValueError], and only from the Mach
    pattern when neither of the other two is found. *)
Theorem parse_speed_errors (text : string) :
  (Re.search Pat.kmh (clean_text text) <> None \/
   Re.search Pat.mph (clean_text text) <> None ->
   exists x, parse_speed text = Ok (Some x))
  /\ (forall e, parse_speed text = Raise e ->
        e = ValueError
        /\ Re.search Pat.kmh (clean_text text) = None
        /\ Re.search Pat.mph (clean_text text) = None
        /\ Re.search Pat.mach (clean_text text) <> None)
  /\ (forall x, parse_speed text = Ok (Some x) -> nonneg_float x).
Proof.
  assert (Hk : forall g, Re.search Pat.kmh (clean_text text) = Some g ->
                         int_numeral g).
  { intros g. apply search_int_group. reflexivity. }
  assert (Hm : forall g, Re.search Pat.mph (clean_text text) = Some g ->
                         int_numeral g).
  { intros g. apply search_int_group. reflexivity. }
  pose proof (first_unit_inv
                [(Pat.kmh, None); (Pat.mph, Some (dec 160934 5));
                 (Pat.mach, Some (Float.of_Z 1225))] (clean_text text)) as Hinv.
  fold (parse_speed text) in Hinv.
  assert (Hall : Forall (fun alt : unit_alt => finite_factor (snd alt))
                   [(Pat.kmh, None); (Pat.mph, Some (dec 160934 5));
                    (Pat.mach, Some (Float.of_Z 1225))])
    by (each factor_tac).
  specialize (Hinv Hall).
  unfold parse_speed in *. cbn [first_unit] in *.
  destruct (Re.search Pat.kmh (clean_text text)) as [g|] eqn:Hs1.
  - destruct (group_float_int g (Hk g eq_refl)) as (n & _ & Hg).
    rewrite Hg in *. cbn [bind] in *.
    split; [eauto|]. split; [discriminate|].
    intros x [= <-]. exact Hinv.
  - destruct (Re.search Pat.mph (clean_text text)) as [g|] eqn:Hs2.
    + destruct (group_float_int g (Hm g eq_refl)) as (n & _ & Hg).
      rewrite Hg in *. cbn [bind] in *.
      split; [eauto|]. split; [discriminate|].
      intros x [= <-]. exact Hinv.
    + split; [intros [H|H]; congruence|].
      destruct (Re.search Pat.mach (clean_text text)) as [g|] eqn:Hs3.
      * destruct (group_float g) as [y|e']; cbn [bind] in *.
        -- split; [discriminate|]. intros x [= <-]. exact Hinv.
        -- split; [|discriminate]. intros e [= <-].
           split; [exact Hinv|]. split; [reflexivity|].
           split; [reflexivity|discriminate].
      * split; [discriminate|discriminate].
Qed.

Lemma parse_speed_errors_witness :
  (exists x, parse_speed "Mach 0.85. (903 km/h)" = Ok (Some x))
  /\ Re.search Pat.mach (clean_text "Mach 0.85.") <> None.
Proof.
  destruct (parse_speed_errors "Mach 0.85. (903 km/h)") as (Hok & _).
  destruct (parse_speed_errors "Mach 0.85.") as (_ & Herr & _).
  split.
  - apply Hok. left. vm_compute. discriminate.
  - apply (Herr ValueError). vm_compute. reflexivity.
Defined.

(** X4.  The parsers of lengths, areas, masses, volumes, fuel volumes and
    forces raise nothing but [ValueError], and a value they return is not
    negative. *)
Theorem unit_parsers_errors (text : string) :
  Forall (fun p : string -> result (option float) =>
            match p text with
            | Ok (Some x) => nonneg_float x
            | Ok None => True
            | Raise e => e = ValueError
            end)
         [parse_length; parse_area; parse_mass; parse_volume;
          parse_fuel_volume; parse_force].
Proof.
  each ltac:(apply first_unit_inv; each factor_tac).
Qed.

Lemma to_int_nonneg (x : float) :
  nonneg_float x ->
  match Float.to_int x with
  | Ok n => 0 <= n
  | Raise e => e = OverflowError
  end.
Proof.
  destruct x as [[]|[]| |[] m e]; simpl; try tauto; try lia.
  intros _. destruct (0 <=? e) eqn:He.
  - apply Z.mul_nonneg_nonneg; [lia|]. apply Z.pow_nonneg. lia.
  - apply Z.leb_gt in He. apply Z.div_pos; [lia|].
    apply Z.pow_pos_nonneg; lia.
Qed.

Lemma parse_int_value_raise (text : string) (e : exn) :
  parse_int_value text = Raise e -> e = OverflowError.
Proof.
  destruct (parse_number_ok text) as (r & Hr).
  unfold parse_int_value. rewrite Hr. cbn [bind].
  destruct r as [x|]; [|discriminate].
  pose proof (to_int_nonneg x (parse_number_nonneg text x Hr)) as Hx.
  destruct (Float.to_int x) as [n|e']; cbn [bind]; [discriminate|].
  intros [= <-]. exact Hx.
Qed.

(** X5.  [parse_int_value] finds no number exactly when [parse_number]
    finds none; an integer it returns is not negative; it raises only
    [OverflowError], which it does on a numeral beyond the range of a
    float, such as one of 400 digits. *)
Theorem parse_int_value_errors (text : string) :
  (parse_int_value text = Ok None <-> parse_number text = Ok None)
  /\ (forall n, parse_int_value text = Ok (Some n) -> 0 <= n)
  /\ (forall e, parse_int_value text = Raise e -> e = OverflowError)
  /\ parse_int_value (repeat_char "9" 400) = Raise OverflowError.
Proof.
  assert (Hex : parse_int_value (repeat_char "9" 400) = Raise OverflowError)
    by (vm_compute; reflexivity).
  revert Hex. generalize (parse_int_value (repeat_char "9" 400)).
  intros big Hex.
  destruct (parse_number_ok text) as (r & Hr).
  pose proof (parse_number_nonneg text) as Hpos.
  unfold parse_int_value. rewrite Hr. cbn [bind].
  destruct r as [x|].
  - pose proof (to_int_nonneg x (Hpos x Hr)) as Hx.
    destruct (Float.to_int x) as [n|e]; cbn [bind].
    + split; [split; discriminate|]. split; [intros n' [= <-]; exact Hx|].
      split; [discriminate|exact Hex].
    + split; [split; discriminate|]. split; [discriminate|].
      split; [intros e' [= <-]; exact Hx|exact Hex].
  - split; [split; reflexivity|]. split; [discriminate|].
    split; [discriminate|exact Hex].
Qed.

Lemma parse_int_value_errors_witness :
  0 <= 180 /\ parse_number "Crew: two" = Ok None.
Proof.
  destruct (parse_int_value_errors "180 passengers") as (_ & Hpos & _).
  destruct (parse_int_value_errors "Crew: two") as (Hnone & _).
  split.
  - apply (Hpos 180). vm_compute. reflexivity.
  - apply Hnone. vm_compute. reflexivity.
Defined.

(** ** Exceptions of the extractors *)

Lemma for_first_r_Raise {A B : Type} (f : A -> result (option B))
    (l : list A) (e : exn) :
  for_first_r f l = Raise e -> exists a, In a l /\ f a = Raise e.
Proof.
  induction l as [|x l IH]; simpl; [discriminate|].
  destruct (f x) as [[b|]|e'] eqn:Hx; simpl.
  - discriminate.
  - intros H. destruct (IH H) as (a & Ha & Hf). exists a. auto.
  - intros [= ->]. exists x. auto.
Qed.

Lemma float_field_errors (p : string -> result (option float)) :
  (forall raw, match p raw with
               | Ok (Some x) => nonneg_float x
               | Ok None => True
               | Raise e => e = ValueError
               end) ->
  forall raw e, float_field p raw = Raise e -> parse_error e.
Proof.
  intros Hp raw e. unfold float_field. specialize (Hp raw).
  destruct (p raw) as [r|e']; simpl; [discriminate|].
  intros [= <-]. left. exact Hp.
Qed.

Lemma int_field_errors (raw : string) (e : exn) :
  int_field parse_int_value raw = Raise e -> parse_error e.
Proof.
  unfold int_field.
  destruct (parse_int_value raw) as [r|e'] eqn:H; simpl; [discriminate|].
  intros [= <-]. right.
  exact (parse_int_value_raise raw e' H).
Qed.

Lemma registry_errors :
  Forall (fun field => forall raw e,
            parser field raw = Raise e -> parse_error e) FIELD_DEFS.
Proof.
  unfold FIELD_DEFS.
  repeat (apply Forall_cons_2;
          [cbn [parser];
           first [ exact int_field_errors
                 | apply float_field_errors; intros raw;
                   apply first_unit_inv; each factor_tac
                 | intros raw e; discriminate ]|]).
  apply Forall_nil_2.
Qed.

Lemma collect_fields_errors (raw_of : FieldDef -> option string)
    (fields : list FieldDef) (extras : gmap string value) (e : exn) :
  Forall (fun field => forall raw e,
            parser field raw = Raise e -> parse_error e) fields ->
  collect_fields raw_of fields extras = Raise e -> parse_error e.
Proof.
  intros Hf. revert extras.
  induction Hf as [|field rest Hp _ IH]; intros extras; simpl; [discriminate|].
  destruct (raw_of field) as [raw|]; [|apply IH].
  destruct (parser field raw) as [[v|]|e'] eqn:Hr; simpl.
  - destruct (dropped v); apply IH.
  - apply IH.
  - intros [= <-]. exact (Hp raw e' Hr).
Qed.

Lemma collect_table_fields_errors (df : DataFrame) (column : string) (e : exn) :
  collect_table_fields df column = Raise e -> parse_error e.
Proof.
  rewrite collect_table_fields_eq. apply collect_fields_errors.
  exact registry_errors.
Qed.

Lemma collect_list_fields_errors (items : list (string * string)) (e : exn) :
  collect_list_fields items = Raise e -> parse_error e.
Proof.
  rewrite collect_list_fields_eq. apply collect_fields_errors.
  exact registry_errors.
Qed.

Lemma seat_count_errors (seat_val : option string) (e : exn) :
  seat_count seat_val = Raise e -> e = OverflowError.
Proof.
  unfold seat_count. destruct seat_val as [text|]; [|discriminate].
  destruct (Str.is_empty text); [discriminate|].
  destruct (parse_number_ok text) as (r & Hr).
  pose proof (parse_number_nonneg text) as Hpos.
  rewrite Hr. cbn [bind]. destruct r as [x|]; [|discriminate].
  destruct (Float.truthy x); [|discriminate].
  pose proof (to_int_nonneg x (Hpos x Hr)) as Hx.
  destruct (Float.to_int x) as [n|e']; [discriminate|].
  intros [= <-]. exact Hx.
Qed.

Lemma resolve_column_no_index_error (variant : option string)
    (columns : list string) (e : exn) :
  columns <> [] -> resolve_column variant columns <> Raise e.
Proof.
  intros Hne. unfold resolve_column.
  destruct (last columns) as [col|] eqn:Hl.
  - destruct variant as [column|]; [|discriminate].
    destruct (Str.is_empty column); discriminate.
  - apply last_None in Hl. contradiction.
Qed.

Lemma frame_columns_nonempty (t : RawTable) :
  (shape1 t <? 2)%nat = false -> df_columns (frame t) <> [].
Proof.
  unfold shape1, frame. simpl. intros H. apply Nat.ltb_ge in H.
  destruct (raw_columns t) as [|a [|b l]]; simpl in *; try lia. discriminate.
Qed.

Lemma try_table_errors (plane : AircraftSpec) (t : RawTable) (e : exn) :
  try_table plane t = Raise e -> parse_error e.
Proof.
  unfold try_table, reindex.
  destruct (shape1 t <? 2)%nat eqn:Hshape; [discriminate|].
  destruct (header_clash t); cbn [bind];
    [intros [= <-]; left; reflexivity|].
  destruct (_ && _); [discriminate|].
  destruct (negb _); [discriminate|].
  pose proof (resolve_column_no_index_error (variant_column plane) _ e
                (frame_columns_nonempty t Hshape)) as Hcol.
  destruct (resolve_column _ _) as [[column|]|e'] eqn:Hr; cbn [bind];
    [|discriminate|intros [= ->]; contradiction].
  pose proof (collect_table_fields_errors (frame t) column e) as Hex.
  destruct (collect_table_fields (frame t) column) as [extras|e'];
    cbn [bind]; [|intros [= ->]; auto].
  destruct (seat_cell plane (frame t) column) as [seat_val|];
    [|discriminate].
  destruct (find_row_value _ _ (range_keywords plane) _) as [range_val|];
    [|discriminate].
  destruct (find_row_value _ _ (cruise_keywords plane) _) as [cruise_val|];
    [|discriminate].
  pose proof (seat_count_errors seat_val e) as Hseat.
  destruct (seat_count seat_val) as [seats|e']; cbn [bind];
    [|intros [= ->]; right; auto].
  destruct (parse_distance_ok range_val) as (rng & ->). cbn [bind].
  pose proof (parse_speed_raise cruise_val) as Hspeed.
  destruct (parse_speed cruise_val) as [spd|e']; cbn [bind].
  - destruct (accept _ _ _ _); discriminate.
  - intros [= <-]. left. exact (Hspeed e' eq_refl).
Qed.

Lemma li_parser_errors (items : list (string * string))
    (keywords : list string) (p : string -> result (option float))
    (skip_terms : list string) (e : exn) :
  extract_li_value items keywords p skip_terms = Raise e ->
  exists text, p text = Raise e.
Proof.
  rewrite extract_li_value_eq. intros H.
  apply for_first_r_Raise in H. destruct H as (key & _ & H).
  apply for_first_r_Raise in H. destruct H as (item & _ & H).
  unfold li_step in H.
  destruct (any_in _ _); [discriminate|].
  destruct (Str.contains _ _); [|discriminate].
  destruct (p (snd item)) as [[x|]|e'] eqn:Hp; cbn [bind] in H.
  - destruct (Float.truthy x); discriminate.
  - discriminate.
  - injection H as <-. eauto.
Qed.

Lemma to_float_errors (v : value) (e : exn) :
  to_float v = Raise e -> parse_error e.
Proof.
  destruct v as [n|x|s]; simpl.
  - unfold Float.of_int. destruct (Float.is_infinite _); [|discriminate].
    intros [= <-]. right. reflexivity.
  - discriminate.
  - unfold Float.of_str. destruct (Float.scan _ _ _ _ _) as [[m k]|];
      [discriminate|]. intros [= <-]. left. reflexivity.
Qed.

Lemma compute_fuel_cost_errors (plane : AircraftSpec)
    (data : gmap string value) (e : exn) :
  compute_fuel_cost plane data = Raise e -> e = KeyError \/ parse_error e.
Proof.
  unfold compute_fuel_cost.
  destruct (FUEL_PROFILES !! fuel_profile plane) as [[kind factor]|];
    [|intros [= <-]; auto].
  intros H. apply bind_Raise in H. destruct H as [H|(base & _ & H)].
  - right. destruct (String.eqb kind "seats").
    + exact (to_float_errors _ _ H).
    + destruct (String.eqb kind "payload"); [|discriminate].
      destruct (or_else _ _) as [v|]; [|discriminate].
      destruct (truthy v); [exact (to_float_errors _ _ H)|discriminate].
  - apply bind_Raise in H. destruct H as [H|(base' & _ & H)].
    + destruct (_ && _); [|discriminate].
      destruct (data !! "seats") as [v|].
      * right. exact (to_float_errors _ _ H).
      * injection H as <-. auto.
    + destruct (Float.leb base' Float.zero); discriminate.
Qed.

(** X6.  The table extractor fails in four ways only: the parser's
    [XMLSyntaxError] on a blank page, [RuntimeError] when no table gives
    the primary metrics, [ValueError] for a page without a table, a table
    whose first header occurs twice or a numeral [float] rejects, and
    [OverflowError] for a numeral beyond the float range.  The list
    extractor fails with [RuntimeError], [ValueError] or [OverflowError]
    only.  Neither fails with [IndexError], the last column of a table
    with two columns or more always being there.  Building a record adds
    the [KeyError] of an unknown size class or fuel profile and the error
    of the fetch itself. *)
Theorem extraction_errors (fetch_html : string -> result Document)
    (plane : AircraftSpec) (html : Document) (e : exn) :
  (extract_table_spec plane html = Raise e ->
   (e = XMLSyntaxError /\ doc_blank html = true /\ doc_tables html = [])
   \/ e = RuntimeError \/ parse_error e)
  /\ (extract_list_spec plane html = Raise e ->
      e = RuntimeError \/ parse_error e)
  /\ (build_entry fetch_html plane = Raise e ->
      fetch_html (wiki_page plane) = Raise e
      \/ (e = XMLSyntaxError /\ spec_type plane = "table")
      \/ e = RuntimeError \/ e = KeyError \/ parse_error e).
Proof.
  assert (Htable : forall html, extract_table_spec plane html = Raise e ->
                     (e = XMLSyntaxError /\ doc_blank html = true
                      /\ doc_tables html = [])
                     \/ e = RuntimeError \/ parse_error e).
  { clear html. intros html. unfold extract_table_spec, read_html.
    destruct (doc_tables html) as [|t ts]; cbn [bind].
    - destruct (doc_blank html); intros [= <-].
      + left. auto.
      + right. right. left. reflexivity.
    - intros H. apply bind_Raise in H. destruct H as [H|(found & _ & H)].
      + apply for_first_r_Raise in H. destruct H as (t' & _ & H).
        right. right. exact (try_table_errors _ _ _ H).
      + destruct found; [discriminate|]. injection H as <-. auto. }
  assert (Hlist : forall html, extract_list_spec plane html = Raise e ->
                    e = RuntimeError \/ parse_error e).
  { clear html. intros html. unfold extract_list_spec. intros H.
    apply bind_Raise in H. destruct H as [H|(seats & Hseats & H)].
    { apply li_parser_errors in H. destruct H as (text & H).
      destruct (parse_number_ok text) as (r & Hr). congruence. }
    apply bind_Raise in H. destruct H as [H|(rng & _ & H)].
    { apply li_parser_errors in H. destruct H as (text & H).
      destruct (parse_distance_ok text) as (r & Hr). congruence. }
    apply bind_Raise in H. destruct H as [H|(spd & _ & H)].
    { apply li_parser_errors in H. destruct H as (text & H).
      right. left. exact (parse_speed_raise text e H). }
    apply bind_Raise in H. destruct H as [H|(sv & Hsv & H)].
    { destruct seats; [discriminate|].
      destruct (default_seats plane); [discriminate|].
      injection H as <-. auto. }
    destruct rng as [r|]; [|injection H as <-; auto].
    destruct spd as [c|]; [|injection H as <-; auto].
    apply bind_Raise in H. destruct H as [H|(extras & _ & H)].
    { right. exact (collect_list_fields_errors _ _ H). }
    apply bind_Raise in H. destruct H as [H|(n & _ & H)]; [|discriminate].
    destruct seats as [x|].
    - injection Hsv as <-.
      apply extract_li_value_Some in Hseats.
      destruct Hseats as (_ & key & _ & _ & item & _ & _ & _ & _ & _ & Hstep).
      apply li_step_Some in Hstep. destruct Hstep as (_ & _ & Hp & _).
      pose proof (to_int_nonneg x (parse_number_nonneg _ x Hp)) as Hx.
      rewrite H in Hx. right. right. exact Hx.
    - destruct (default_seats plane); [|discriminate].
      injection Hsv as <-. discriminate. }
  split; [apply Htable|]. split; [apply Hlist|].
  unfold build_entry. intros H.
  apply bind_Raise in H. destruct H as [H|(page & _ & H)]; [auto|].
  right.
  apply bind_Raise in H. destruct H as [H|(found & _ & H)].
  { destruct (String.eqb (spec_type plane) "table") eqn:Hk.
    - apply String.eqb_eq in Hk.
      destruct (Htable _ H) as [(-> & _)|[->|Hp]]; auto.
    - destruct (Hlist _ H); auto. }
  destruct found as [[[seats range_km] cruise] extras].
  apply bind_Raise in H. destruct H as [H|(t & _ & H)].
  { destruct (TURNAROUND_BY_CLASS !! aircraft_class plane); [discriminate|].
    injection H as <-. auto. }
  apply bind_Raise in H. destruct H as [H|(fuel & _ & H)]; [|discriminate].
  apply compute_fuel_cost_errors in H. tauto.
Qed.

Lemma extraction_errors_witness :
  ((RuntimeError = XMLSyntaxError /\ doc_blank a320_page = true
    /\ doc_tables a320_page = [])
   \/ RuntimeError = RuntimeError \/ parse_error RuntimeError)
  /\ ((XMLSyntaxError = XMLSyntaxError /\ doc_blank blank_page = true
       /\ doc_tables blank_page = [])
      \/ XMLSyntaxError = RuntimeError \/ parse_error XMLSyntaxError)
  /\ ((ValueError = XMLSyntaxError /\ doc_blank clash_page = true
       /\ doc_tables clash_page = [])
      \/ ValueError = RuntimeError \/ parse_error ValueError).
Proof.
  destruct (extraction_errors sample_pages a318 a320_page RuntimeError)
    as (Htable & _).
  destruct (extraction_errors sample_pages a320 blank_page XMLSyntaxError)
    as (Hblank & _).
  destruct (extraction_errors sample_pages a320 clash_page ValueError)
    as (Hclash & _).
  split; [|split].
  - apply Htable. vm_refl.
  - apply Hblank. vm_refl.
  - apply Hclash. vm_refl.
Defined.

(** ** Rejected tables *)




(** ** Profiles without seat keywords *)

Lemma try_table_seats (plane : AircraftSpec) (t : RawTable)
    (seats : Z) (range_km cruise : float) (extras : gmap string value) :
  try_table plane t = Ok (Some (seats, range_km, cruise, extras)) ->
  exists column seat_val n,
    seat_cell plane (frame t) column = Some seat_val
    /\ seat_count seat_val = Ok n
    /\ seats = match default_seats plane with
               | Some d => if n =? 0 then d else n
               | None => n
               end.
Proof.
  unfold try_table, reindex, bind. intros H.
  repeat case_match; simplify_eq; eauto 10.
  all: eexists _, _, _; split; [eassumption|]; split; [eassumption|];
    match goal with Hz : (_ =? 0) = _ |- _ => rewrite Hz end; reflexivity.
Qed.

(** X8.  For a profile that declares no seat keywords, as the cargo
    profiles do, an extraction that succeeds returns the profile's default
    seat count, on the table path and on the list path. *)
Theorem keywordless_seats (plane : AircraftSpec) (html : Document)
    (seats : Z) (range_km cruise : float) (extras : gmap string value) :
  seat_keywords plane = [] ->
  extract_table_spec plane html = Ok (seats, range_km, cruise, extras)
  \/ extract_list_spec plane html = Ok (seats, range_km, cruise, extras) ->
  default_seats plane = Some seats.
Proof.
  intros Hk [H|H].
  - apply extract_table_spec_Ok in H. destruct H as (_ & t & _ & _ & _ & H).
    apply try_table_seats in H.
    destruct H as (column & seat_val & n & Hcell & Hcount & ->).
    unfold seat_cell in Hcell. rewrite Hk in Hcell.
    destruct (default_seats plane) as [d|]; [|discriminate].
    injection Hcell as <-. injection Hcount as <-. reflexivity.
  - unfold extract_list_spec in H. rewrite Hk in H.
    inv_bind H. rewrite extract_li_value_eq in Ha.
    cbn [for_first_r] in Ha. assert (a = None) by congruence. subst a.
    inv_bind H. inv_bind H. inv_bind H.
    destruct (default_seats plane) as [d|]; [|discriminate].
    simplify_eq.
    repeat case_match; try discriminate.
    inv_bind H. inv_bind H. simplify_eq. reflexivity.
Qed.

Lemma keywordless_seats_witness : default_seats b748f = Some 0.
Proof.
  apply (keywordless_seats b748f b748f_page 0
           (Float.of_Z 7630) (Float.of_Z 903)
           (value_or ∅ (collect_table_fields (frame b748f_table) "747-8F"))).
  - reflexivity.
  - left. vm_compute. reflexivity.
Defined.

(** ** The order of the batch *)

Lemma insert_by_order_perm (p : AircraftSpec) (l : list AircraftSpec) :
  Permutation (insert_by_order p l) (p :: l).
Proof.
  induction l as [|q l IH]; simpl; [reflexivity|].
  destruct (order p <=? order q); [reflexivity|].
  rewrite IH. apply perm_swap.
Qed.

Lemma insert_by_order_sorted (p : AircraftSpec) (l : list AircraftSpec) :
  StronglySorted by_order l -> StronglySorted by_order (insert_by_order p l).
Proof.
  induction 1 as [|q l Hs IH Hq]; simpl.
  - constructor; constructor.
  - destruct (order p <=? order q) eqn:Hpq.
    + apply Z.leb_le in Hpq. constructor.
      * constructor; assumption.
      * constructor; [exact Hpq|].
        eapply Forall_impl; [exact Hq|]. unfold by_order. intros r Hr. lia.
    + apply Z.leb_gt in Hpq. constructor; [exact IH|].
      rewrite (insert_by_order_perm p l).
      constructor; [unfold by_order; lia|exact Hq].
Qed.

Lemma insert_by_order_rank (k : Z) (p : AircraftSpec) (l : list AircraftSpec) :
  of_rank k (insert_by_order p l) = of_rank k (p :: l).
Proof.
  unfold of_rank. induction l as [|q l IH]; [reflexivity|].
  simpl insert_by_order. destruct (order p <=? order q) eqn:Hpq; [reflexivity|].
  apply Z.leb_gt in Hpq. simpl in *. rewrite IH.
  destruct (order p =? k) eqn:Hp; [|reflexivity].
  apply Z.eqb_eq in Hp.
  assert (Hq : (order q =? k) = false) by (apply Z.eqb_neq; lia).
  rewrite Hq. reflexivity.
Qed.

Lemma sorted_perm (planes : list AircraftSpec) :
  Permutation (sorted planes) planes.
Proof.
  unfold sorted. induction planes as [|p planes IH]; simpl; [reflexivity|].
  rewrite insert_by_order_perm. constructor. exact IH.
Qed.

(** X9.  The batch goes through every profile exactly once, in
    non-decreasing order of rank, and profiles of equal rank keep the order
    in which they were declared. *)
Theorem batch_order (planes : list AircraftSpec) :
  Permutation (sorted planes) planes
  /\ StronglySorted by_order (sorted planes)
  /\ (forall k, of_rank k (sorted planes) = of_rank k planes).
Proof.
  unfold sorted. induction planes as [|p planes (IH1 & IH2 & IH3)]; simpl.
  - split; [reflexivity|]. split; [constructor|reflexivity].
  - split; [|split].
    + rewrite insert_by_order_perm. constructor. exact IH1.
    + apply insert_by_order_sorted. exact IH2.
    + intros k. rewrite insert_by_order_rank. unfold of_rank in *. simpl.
      rewrite IH3. reflexivity.
Qed.

(** ** The fields of a record *)

Lemma registry_keys_fresh (field : FieldDef) :
  In field FIELD_DEFS -> ~ In (key field) record_keys.
Proof.
  assert (H : forallb (fun f => negb (existsb (String.eqb (key f)) record_keys))
                      FIELD_DEFS = true) by (vm_compute; reflexivity).
  rewrite forallb_forall in H. intros Hin Hk. specialize (H field Hin).
  apply negb_true_iff in H.
  assert (Hex : existsb (String.eqb (key field)) record_keys = true).
  { apply existsb_exists. exists (key field). split; [exact Hk|].
    apply String.eqb_refl. }
  congruence.
Qed.


Lemma extraction_stored (plane : AircraftSpec) (html : Document)
    (seats : Z) (range_km cruise : float) (extras : gmap string value) :
  (if String.eqb (spec_type plane) "table"
   then extract_table_spec plane html
   else extract_list_spec plane html) = Ok (seats, range_km, cruise, extras) ->
  forall k v, extras !! k = Some v ->
    exists field raw,
      In field FIELD_DEFS /\ key field = k
      /\ parser field raw = Ok (Some v) /\ nonzero_value v.
Proof.
  intros H k v Hk.
  assert (Hc : exists raw_of, collect_fields raw_of FIELD_DEFS ∅ = Ok extras).
  { destruct (String.eqb (spec_type plane) "table").
    - apply extract_table_spec_Ok in H. destruct H as (_ & t & _ & _ & _ & H).
      apply try_table_column in H.
      destruct H as (column & _ & _ & _ & _ & _ & H & _).
      rewrite collect_table_fields_eq in H. eauto.
    - unfold extract_list_spec in H.
      inv_bind H. inv_bind H. inv_bind H. inv_bind H.
      destruct a0; [|discriminate]. destruct a1; [|discriminate].
      inv_bind H. inv_bind H. rewrite collect_list_fields_eq in Ha3.
      simplify_eq. eauto. }
  destruct Hc as (raw_of & Hc). revert Hc. generalize FIELD_DEFS.
  intros fields Hc.
  destruct (collect_fields_from_empty _ _ _ Hc k v Hk)
    as (field & raw & Hin & Hkey & _ & Hp & Hnz).
  exists field, raw. auto.
Qed.

Lemma extraction_extras (plane : AircraftSpec) (html : Document)
    (seats : Z) (range_km cruise : float) (extras : gmap string value) :
  (if String.eqb (spec_type plane) "table"
   then extract_table_spec plane html
   else extract_list_spec plane html) = Ok (seats, range_km, cruise, extras) ->
  forall k v, extras !! k = Some v ->
    exists field, In field FIELD_DEFS /\ key field = k /\ nonzero_value v.
Proof.
  intros H k v Hk.
  destruct (extraction_stored _ _ _ _ _ _ H k v Hk)
    as (field & raw & Hin & Hkey & _ & Hnz).
  exists field. auto.
Qed.




Lemma shown_lookup (plane : AircraftSpec) (extras base : gmap string value)
    (k : string) :
  (forall k', In k' record_keys -> extras !! k' = None) ->
  In k ["id"; "name"; "range_km"; "cruise_kmh"; "role"; "turnaround_min"] ->
  (if String.eqb (role plane) "cargo" then
     <["seats" := VInt 0]>
       (delete "one_class_max_seats"
          (delete "two_class_seats"
             (delete "three_class_seats" (extras ∪ base))))
   else extras ∪ base) !! k = base !! k.
Proof.
  intros Hfresh Hk.
  assert (Hex : extras !! k = None).
  { apply Hfresh. unfold record_keys. simpl in *. tauto. }
  assert (Hu : (extras ∪ base) !! k = base !! k)
    by (apply lookup_union_r; exact Hex).
  destruct (String.eqb (role plane) "cargo"); [|exact Hu].
  simpl in Hk.
  destruct Hk as [<-|[<-|[<-|[<-|[<-|[<-|[]]]]]]];
    rewrite lookup_insert_ne by discriminate;
    rewrite !lookup_delete_ne by discriminate; exact Hu.
Qed.

Lemma extras_fresh (plane : AircraftSpec) (html : Document)
    (seats : Z) (range_km cruise : float) (extras : gmap string value) :
  (if String.eqb (spec_type plane) "table"
   then extract_table_spec plane html
   else extract_list_spec plane html) = Ok (seats, range_km, cruise, extras) ->
  forall k, In k record_keys -> extras !! k = None.
Proof.
  intros Hx k Hk. destruct (extras !! k) as [v|] eqn:Hv; [|reflexivity].
  destruct (extraction_extras _ _ _ _ _ _ Hx k v Hv) as (field & Hin & <- & _).
  destruct (registry_keys_fresh field Hin Hk).
Qed.

Lemma build_entry_id (fetch_html : string -> result Document)
    (plane : AircraftSpec) (entry : gmap string value) :
  build_entry fetch_html plane = Ok entry ->
  entry !! "id" = Some (VStr (id plane)).
Proof.
  intros H. apply build_entry_Ok in H.
  destruct H as (html & seats & range_km & cruise & extras & t & fuel
                 & _ & Hx & _ & _ & ->).
  rewrite lookup_insert_ne by discriminate.
  rewrite shown_lookup.
  - reflexivity.
  - exact (extras_fresh _ _ _ _ _ _ Hx).
  - simpl. tauto.
Qed.




(** ** Fuel cost of a record (C6) *)



(** ** The output of a run *)

(** X11.  A run that goes through writes one record per profile, and the
    identifiers of the records are those of the profiles in rank order. *)
Theorem batch_output (fetch_html : string -> result Document)
    (planes : list AircraftSpec) (entries : list (gmap string value)) :
  main fetch_html planes = Ok entries ->
  length entries = length planes
  /\ map (fun entry : gmap string value => entry !! "id") entries
     = map (fun plane => Some (VStr (id plane))) (sorted planes).
Proof.
  unfold main. intros H. apply build_all_Ok in H.
  split.
  - rewrite <- (Permutation_length (sorted_perm planes)).
    symmetry. eapply Forall2_length. exact H.
  - induction H as [|p e ps es Hp _ IH]; simpl; [reflexivity|].
    rewrite IH. f_equal. exact (build_entry_id _ _ _ Hp).
Qed.

Lemma batch_output_witness :
  map (fun entry : gmap string value => entry !! "id")
      [value_or ∅ (build_entry sample_pages b738);
       value_or ∅ (build_entry sample_pages a320)]
  = map (fun plane => Some (VStr (id plane))) (sorted [a320; b738]).
Proof.
  apply (batch_output sample_pages [a320; b738]).
  vm_refl.
Defined.

(** ** The substring test *)

Lemma starts_with_spec (p s : string) :
  Str.starts_with p s = true <-> exists rest, s = (p ++ rest)%string.
Proof.
  revert s. induction p as [|a p IH]; intros s; simpl.
  - split; [eauto|reflexivity].
  - destruct s as [|b s].
    + split; [discriminate|]. intros (rest & H). discriminate.
    + rewrite andb_true_iff, IH. split.
      * intros [Hab (rest & ->)]. apply Ascii.eqb_eq in Hab. subst. eauto.
      * intros (rest & [= -> ->]). split; [apply Ascii.eqb_refl|eauto].
Qed.

Lemma contains_spec (hay needle : string) :
  Str.contains hay needle = true <->
  exists pre post, hay = (pre ++ needle ++ post)%string.
Proof.
  induction hay as [|c hay IH]; simpl.
  - rewrite orb_false_r, starts_with_spec. split.
    + intros (rest & H). exists "", rest. exact H.
    + intros (pre & post & H). destruct pre; simpl in H.
      * eauto.
      * discriminate.
  - rewrite orb_true_iff, starts_with_spec, IH. split.
    + intros [(rest & H)|(pre & post & ->)].
      * exists "", rest. exact H.
      * exists (String c pre), post. reflexivity.
    + intros (pre & post & H). destruct pre as [|a pre]; simpl in H.
      * left. eauto.
      * right. injection H as _ ->. eauto.
Qed.

(** X12.  A keyword is found in a label exactly when the lower-cased
    label is some text, the lower-cased keyword, and some more text; so
    the empty keyword is found in every label, and a keyword list that is
    empty finds no row. *)
Theorem keyword_test (label key : string) :
  (contains_ci label key = true <->
   exists pre post,
     Str.lower label = (pre ++ Str.lower key ++ post)%string)
  /\ contains_ci label "" = true
  /\ (forall index, has_index_keyword index [] = false)
  /\ (forall index, In label index -> has_index_keyword index [""] = true).
Proof.
  split; [apply contains_spec|]. split.
  - apply contains_spec. exists "", (Str.lower label). reflexivity.
  - split.
    + intros index. unfold has_index_keyword.
      induction index as [|idx index IH]; simpl; [reflexivity|exact IH].
    + intros index Hin. unfold has_index_keyword.
      apply existsb_exists. exists label. split; [exact Hin|].
      simpl. rewrite orb_false_r.
      apply contains_spec. exists "", (Str.lower label). reflexivity.
Qed.

Lemma keyword_test_witness :
  contains_ci "Maximum Range[a]" "range" = true.
Proof.
  apply (proj1 (keyword_test "Maximum Range[a]" "range")).
  exists "maximum ", "[a]". reflexivity.
Defined.

(** ** A list without a range item *)

Lemma extract_li_value_no_keyword (items : list (string * string))
    (keywords : list string) (p : string -> result (option float))
    (skip_terms : list string) :
  no_keyword_item items keywords ->
  extract_li_value items keywords p skip_terms = Ok None.
Proof.
  intros H. rewrite extract_li_value_eq.
  apply for_first_r_None. apply Forall_forall. intros key Hkey.
  apply for_first_r_None. eapply Forall_impl; [exact H|].
  intros item Hitem. rewrite Forall_forall in Hitem.
  unfold li_step. rewrite (Hitem key Hkey).
  destruct (any_in _ _); reflexivity.
Qed.

Lemma extract_li_number_ok (items : list (string * string))
    (keywords skip_terms : list string) :
  exists r, extract_li_value items keywords parse_number skip_terms = Ok r.
Proof.
  destruct (extract_li_value items keywords parse_number skip_terms)
    as [r|e] eqn:H; [eauto|].
  apply li_parser_errors in H. destruct H as (text & H).
  destruct (parse_number_ok text) as (r & Hr). congruence.
Qed.

(** X13.  The list extractor fails when no bullet label contains a range
    keyword: with [RuntimeError], or with the [ValueError] of a cruise
    figure that does not convert; on a page without labelled bullets it
    fails with [RuntimeError]. *)
Theorem list_without_range (plane : AircraftSpec) (soup : Document) :
  (no_keyword_item (build_list_items soup) (range_keywords plane) ->
   extract_list_spec plane soup = Raise RuntimeError
   \/ extract_list_spec plane soup = Raise ValueError)
  /\ (build_list_items soup = [] ->
      extract_list_spec plane soup = Raise RuntimeError).
Proof.
  split.
  - intros Hno. unfold extract_list_spec.
    destruct (extract_li_number_ok (build_list_items soup) (seat_keywords plane)
                ["width"; "pitch"; "cargo"; "range"]) as (s & ->).
    cbn [bind].
    rewrite (extract_li_value_no_keyword _ _ parse_distance [] Hno).
    cbn [bind].
    destruct (extract_li_value _ (cruise_keywords plane) parse_speed [])
      as [c|e] eqn:Hc; cbn [bind].
    + left. destruct s as [x|]; cbn [bind].
      * destruct c; reflexivity.
      * destruct (default_seats plane); cbn [bind]; [|reflexivity].
        destruct c; reflexivity.
    + right. apply li_parser_errors in Hc. destruct Hc as (text & Hc).
      rewrite (parse_speed_raise text e Hc). reflexivity.
  - intros Hempty. unfold extract_list_spec. rewrite Hempty.
    rewrite !extract_li_value_eq.
    assert (Hn : forall (keywords : list string)
                   (f : string -> string * string -> result (option float)),
               for_first_r (fun key => for_first_r (f key) []) keywords
               = Ok None).
    { intros keywords f. induction keywords as [|k ks IH]; [reflexivity|].
      simpl. exact IH. }
    rewrite !Hn. cbn [bind].
    destruct (default_seats plane); reflexivity.
Qed.

Lemma list_without_range_witness :
  extract_list_spec b738 a320_page = Raise RuntimeError.
Proof.
  apply (proj2 (list_without_range b738 a320_page)). reflexivity.
Defined.

(** ** Cleaning a text *)

Lemma clean_text_eq (s : string) :
  clean_text s = Str.strip (Str.map_char unbreak (Re.delete_all footnote s 0)).
Proof. reflexivity. Qed.

Lemma star_until_close (s : string) :
  Re.star (fun c => negb (Ascii.eqb c "]")) s
    (fun s' => match s' with
               | String c s'' =>
                   if Re.lit "]" c then Some (s'', @None string) else None
               | EmptyString => None
               end)
  = option_map (fun rest => (rest, None)) (after_close s).
Proof.
  induction s as [|c s IH]; [reflexivity|].
  cbn [Re.star after_close]. unfold Re.lit in *.
  rewrite (Ascii.eqb_sym "]" c).
  destruct (Ascii.eqb c "]") eqn:Hc; cbn [negb option_map]; [reflexivity|].
  rewrite IH. destruct (after_close s); reflexivity.
Qed.

Lemma match_at_footnote (s : string) :
  Re.match_at footnote s =
  match s with
  | String c s' =>
      if Ascii.eqb c "[" then option_map (fun rest => (rest, None)) (after_close s')
      else None
  | EmptyString => None
  end.
Proof.
  destruct s as [|c s]; [reflexivity|].
  unfold Re.match_at, footnote. cbn [Re.run]. unfold Re.lit at 1.
  rewrite (Ascii.eqb_sym "[" c).
  destruct (Ascii.eqb c "["); [|reflexivity].
  apply star_until_close.
Qed.

Lemma delete_all_skip (r : Re.regex) (s : string) (n : nat) :
  Re.delete_all r s n = Re.delete_all r (skip_chars n s) 0.
Proof.
  revert n. induction s as [|c s IH]; intros n.
  - destruct n; reflexivity.
  - destruct n as [|n]; [reflexivity|]. simpl. apply IH.
Qed.

Lemma after_close_suffix (s rest : string) :
  after_close s = Some rest ->
  (String.length rest < String.length s)%nat
  /\ skip_chars (String.length s - String.length rest) s = rest
  /\ (forall x, has_char x rest = true -> has_char x s = true).
Proof.
  revert rest. induction s as [|c s IH]; intros rest; simpl; [discriminate|].
  destruct (Ascii.eqb c "]").
  - intros [= ->]. split; [lia|]. split.
    + replace (S (String.length rest) - String.length rest)%nat with 1%nat by lia.
      reflexivity.
    + intros x Hx. rewrite Hx. apply orb_true_r.
  - intros H. destruct (IH rest H) as (Hlen & Hskip & Hsub).
    split; [lia|]. split.
    + replace (S (String.length s) - String.length rest)%nat
        with (S (String.length s - String.length rest)) by lia.
      simpl. exact Hskip.
    + intros x Hx. rewrite (Hsub x Hx). apply orb_true_r.
Qed.

Lemma after_close_None (s : string) :
  after_close s = None <-> has_char "]" s = false.
Proof.
  induction s as [|c s IH]; simpl; [tauto|].
  destruct (Ascii.eqb c "]"); simpl; [split; discriminate|exact IH].
Qed.

Lemma delete_all_cons (c : ascii) (s : string) :
  Re.delete_all footnote (String c s) 0 =
  if Ascii.eqb c "[" then
    match after_close s with
    | Some rest => Re.delete_all footnote rest 0
    | None => String c (Re.delete_all footnote s 0)
    end
  else String c (Re.delete_all footnote s 0).
Proof.
  change (Re.delete_all footnote (String c s) 0)
    with (match Re.match_at footnote (String c s) with
          | Some (rest, _) =>
              match (String.length (String c s) - String.length rest)%nat with
              | S n => Re.delete_all footnote s n
              | O => String c (Re.delete_all footnote s 0)
              end
          | None => String c (Re.delete_all footnote s 0)
          end).
  rewrite match_at_footnote.
  destruct (Ascii.eqb c "["); [|reflexivity].
  destruct (after_close s) as [rest|] eqn:Hr; [|reflexivity].
  simpl option_map. cbv iota beta.
  destruct (after_close_suffix s rest Hr) as (Hlen & Hskip & _).
  simpl String.length.
  replace (S (String.length s) - String.length rest)%nat
    with (S (String.length s - String.length rest)) by lia.
  rewrite delete_all_skip, Hskip. reflexivity.
Qed.

Lemma delete_all_chars (x : ascii) (n : nat) :
  forall s, (String.length s <= n)%nat ->
    has_char x (Re.delete_all footnote s 0) = true -> has_char x s = true.
Proof.
  induction n as [|n IH]; intros s Hlen.
  - destruct s; [trivial|simpl in Hlen; lia].
  - destruct s as [|c s]; [trivial|]. simpl in Hlen.
    rewrite delete_all_cons.
    destruct (Ascii.eqb c "[").
    + destruct (after_close s) as [rest|] eqn:Hr.
      * destruct (after_close_suffix s rest Hr) as (Hl & _ & Hsub).
        intros H. simpl. rewrite (Hsub x (IH rest ltac:(lia) H)).
        apply orb_true_r.
      * simpl. intros H. apply orb_true_iff in H. apply orb_true_iff.
        destruct H as [H|H]; [auto|right; apply IH; [lia|exact H]].
    + simpl. intros H. apply orb_true_iff in H. apply orb_true_iff.
      destruct H as [H|H]; [auto|right; apply IH; [lia|exact H]].
Qed.

Lemma delete_all_note_free (n : nat) :
  forall s, (String.length s <= n)%nat ->
    note_free (Re.delete_all footnote s 0) = true.
Proof.
  induction n as [|n IH]; intros s Hlen.
  - destruct s; [reflexivity|simpl in Hlen; lia].
  - destruct s as [|c s]; [reflexivity|]. simpl in Hlen.
    rewrite delete_all_cons.
    destruct (Ascii.eqb c "[") eqn:Hc.
    + destruct (after_close s) as [rest|] eqn:Hr.
      * destruct (after_close_suffix s rest Hr) as (Hl & _ & _).
        apply IH. lia.
      * simpl. rewrite Hc, (IH s ltac:(lia)), andb_true_r.
        apply negb_true_iff. apply after_close_None in Hr.
        destruct (has_char "]" (Re.delete_all footnote s 0)) eqn:Hd;
          [|reflexivity].
        apply (delete_all_chars "]" (String.length s) s (le_n _)) in Hd.
        congruence.
    + simpl. rewrite Hc. simpl. apply IH. lia.
Qed.

Lemma delete_all_id (s : string) :
  note_free s = true -> Re.delete_all footnote s 0 = s.
Proof.
  induction s as [|c s IH]; [reflexivity|].
  simpl note_free. intros H. apply andb_true_iff in H. destruct H as [Hc Hs].
  rewrite delete_all_cons, (IH Hs).
  destruct (Ascii.eqb c "["); [|reflexivity].
  apply negb_true_iff in Hc. apply after_close_None in Hc. rewrite Hc.
  reflexivity.
Qed.

Lemma unbreak_bracket (c x : ascii) :
  x = "["%char \/ x = "]"%char ->
  Ascii.eqb (unbreak c) x = Ascii.eqb c x.
Proof.
  intros Hx. unfold unbreak.
  destruct (Ascii.eqb c (ascii_of_N 160)) eqn:Hc; [|reflexivity].
  apply Ascii.eqb_eq in Hc. subst c. destruct Hx as [->| ->]; reflexivity.
Qed.

Lemma has_close_unbreak (s : string) :
  has_char "]" (Str.map_char unbreak s) = has_char "]" s.
Proof.
  induction s as [|c s IH]; simpl; [reflexivity|].
  rewrite IH, unbreak_bracket by auto. reflexivity.
Qed.

Lemma note_free_unbreak (s : string) :
  note_free (Str.map_char unbreak s) = note_free s.
Proof.
  induction s as [|c s IH]; simpl; [reflexivity|].
  rewrite IH, has_close_unbreak, unbreak_bracket by auto. reflexivity.
Qed.

Lemma unbreak_no_nbsp (s : string) :
  has_char (ascii_of_N 160) (Str.map_char unbreak s) = false.
Proof.
  induction s as [|c s IH]; cbn [Str.map_char has_char]; [reflexivity|].
  rewrite IH, orb_false_r. unfold unbreak.
  destruct (Ascii.eqb c (ascii_of_N 160)) eqn:Hc; [reflexivity|exact Hc].
Qed.

Lemma unbreak_id (s : string) :
  has_char (ascii_of_N 160) s = false -> Str.map_char unbreak s = s.
Proof.
  induction s as [|c s IH]; cbn [Str.map_char has_char]; [reflexivity|].
  intros H. apply orb_false_iff in H. destruct H as [Hc Hs].
  rewrite (IH Hs). unfold unbreak. rewrite Hc. reflexivity.
Qed.

Lemma has_char_lstrip (x : ascii) (s : string) :
  has_char x (Str.lstrip s) = true -> has_char x s = true.
Proof.
  induction s as [|c s IH]; simpl; [trivial|].
  destruct (Str.is_space c); simpl; [|trivial].
  intros H. rewrite (IH H). apply orb_true_r.
Qed.

Lemma has_char_rstrip (x : ascii) (s : string) :
  has_char x (Str.rstrip s) = true -> has_char x s = true.
Proof.
  induction s as [|c s IH]; simpl; [trivial|].
  destruct (Str.rstrip s) as [|d r] eqn:Hr.
  - destruct (Str.is_space c); simpl; [discriminate|].
    rewrite orb_false_r. intros ->. reflexivity.
  - simpl. intros H. apply orb_true_iff in H. apply orb_true_iff.
    destruct H as [H|H]; [auto|right; apply IH; exact H].
Qed.

Lemma note_free_lstrip (s : string) :
  note_free s = true -> note_free (Str.lstrip s) = true.
Proof.
  induction s as [|c s IH]; simpl; [trivial|].
  intros H. destruct (Str.is_space c); [|exact H].
  apply andb_true_iff in H. apply IH. tauto.
Qed.

Lemma note_free_rstrip (s : string) :
  note_free s = true -> note_free (Str.rstrip s) = true.
Proof.
  induction s as [|c s IH]; simpl; [trivial|].
  intros H. apply andb_true_iff in H. destruct H as [Hc Hs].
  specialize (IH Hs).
  destruct (Str.rstrip s) as [|d r] eqn:Hr.
  - destruct (Str.is_space c); [reflexivity|].
    simpl. destruct (Ascii.eqb c "["); reflexivity.
  - change (note_free (String c (String d r)))
      with ((if Ascii.eqb c "[" then negb (has_char "]" (String d r)) else true)
            && note_free (String d r)).
    rewrite IH, andb_true_r.
    destruct (Ascii.eqb c "["); [|reflexivity].
    apply negb_true_iff in Hc. apply negb_true_iff.
    destruct (has_char "]" (String d r)) eqn:Hd; [|reflexivity].
    rewrite <- Hr in Hd. apply has_char_rstrip in Hd. congruence.
Qed.

Lemma rstrip_idem (s : string) : Str.rstrip (Str.rstrip s) = Str.rstrip s.
Proof.
  induction s as [|c s IH]; [reflexivity|].
  simpl. destruct (Str.rstrip s) as [|d r] eqn:Hr.
  - destruct (Str.is_space c) eqn:Hc; [reflexivity|].
    simpl. rewrite Hc. reflexivity.
  - change (Str.rstrip (String c (String d r)))
      with (match Str.rstrip (String d r) with
            | EmptyString =>
                if Str.is_space c then EmptyString else String c EmptyString
            | r' => String c r'
            end).
    rewrite IH. reflexivity.
Qed.

Lemma lstrip_rstrip (s : string) :
  Str.lstrip (Str.rstrip (Str.lstrip s)) = Str.rstrip (Str.lstrip s).
Proof.
  induction s as [|c s IH]; [reflexivity|].
  simpl Str.lstrip at 2 3. destruct (Str.is_space c) eqn:Hc; [exact IH|].
  cbn [Str.rstrip]. destruct (Str.rstrip s); rewrite ?Hc;
    cbn [Str.lstrip]; rewrite Hc; reflexivity.
Qed.

Lemma strip_idem (s : string) : Str.strip (Str.strip s) = Str.strip s.
Proof.
  unfold Str.strip. rewrite lstrip_rstrip. apply rstrip_idem.
Qed.

(** X14.  Cleaning a text twice gives the same as cleaning it once: the
    cleaned text has no bracket pair left, no non-breaking space, and no
    white space at either end. *)
Theorem clean_text_idempotent (s : string) :
  clean_text (clean_text s) = clean_text s
  /\ note_free (clean_text s) = true
  /\ has_char (ascii_of_N 160) (clean_text s) = false
  /\ Str.strip (clean_text s) = clean_text s.
Proof.
  assert (Hfree : note_free (clean_text s) = true).
  { rewrite clean_text_eq. unfold Str.strip.
    apply note_free_rstrip, note_free_lstrip.
    rewrite note_free_unbreak.
    apply (delete_all_note_free (String.length s)). apply le_n. }
  assert (Hnb : has_char (ascii_of_N 160) (clean_text s) = false).
  { rewrite clean_text_eq. unfold Str.strip.
    destruct (has_char _ (Str.rstrip _)) eqn:H; [|reflexivity].
    apply has_char_rstrip, has_char_lstrip in H.
    rewrite unbreak_no_nbsp in H. discriminate. }
  assert (Hstrip : Str.strip (clean_text s) = clean_text s).
  { rewrite clean_text_eq. apply strip_idem. }
  split; [|auto].
  rewrite (clean_text_eq (clean_text s)).
  rewrite (delete_all_id _ Hfree), (unbreak_id _ Hnb). exact Hstrip.
Qed.

(** ** The fuel cost of a cargo record *)

(** X15.  The seat count of a cargo record is set to 0 before the fuel
    cost is derived, so the cost never falls back to seats: a cargo record
    has fuel cost 0.0 under a seats model, and under a payload model
    whenever it has neither a maximum payload nor a take-off weight. *)
Theorem cargo_fuel_cost (fetch_html : string -> result Document)
    (plane : AircraftSpec) (entry : gmap string value)
    (kind : string) (factor : float) :
  role plane = "cargo" ->
  FUEL_PROFILES !! fuel_profile plane = Some (kind, factor) ->
  build_entry fetch_html plane = Ok entry ->
  kind = "seats"
  \/ (kind = "payload" /\ entry !! "max_payload_kg" = None
      /\ entry !! "mtow_kg" = None) ->
  entry !! "fuel_cost_per_km" = Some (VFloat Float.zero).
Proof.
  intros Hrole Hp H Hk. apply build_entry_Ok in H.
  destruct H as (html & seats & range_km & cruise & extras & t & fuel
                 & _ & _ & _ & Hfuel & ->).
  rewrite lookup_insert_eq. f_equal. f_equal.
  rewrite Hrole in *. change (String.eqb "cargo" "cargo") with true in *.
  cbv iota in *.
  match type of Hfuel with
  | compute_fuel_cost _ ?d = _ => set (shown := d) in *
  end.
  assert (Hs : is_true (shown !! "seats") = false).
  { unfold shown. rewrite lookup_insert_eq. reflexivity. }
  assert (Hz : compute_fuel_cost plane shown = Ok Float.zero).
  { apply (fuel_zero plane shown kind factor Hp); [|exact Hs].
    destruct Hk as [Hk|(Hk & Hpay & Hmtow)]; [left; exact Hk|right].
    rewrite lookup_insert_ne in Hpay, Hmtow by discriminate.
    rewrite Hpay, Hmtow. auto. }
  congruence.
Qed.

Lemma cargo_fuel_cost_witness :
  value_or ∅ (build_entry bare_pages b748f) !! "fuel_cost_per_km"
  = Some (VFloat Float.zero).
Proof.
  apply (cargo_fuel_cost bare_pages b748f _ "payload" (dec 5 5)).
  - reflexivity.
  - vm_refl.
  - vm_refl.
  - right. split; [reflexivity|]. split; vm_refl.
Defined.

(** ** The extracted metrics *)

Lemma nonneg_nonzero_positive (x : float) :
  nonneg_float x -> Float.eqb x Float.zero = false -> positive_float x.
Proof.
  destruct x as [[]|[]| |[] m e]; simpl; try tauto; discriminate.
Qed.

Lemma or_zero_nonneg (x : option float) :
  (forall v, x = Some v -> nonneg_float v) -> nonneg_float (or_zero x).
Proof.
  intros H. destruct x as [v|]; simpl; [|exact I].
  destruct (Float.truthy v); [auto|exact I].
Qed.

Lemma seat_count_nonneg (seat_val : option string) (n : Z) :
  seat_count seat_val = Ok n -> 0 <= n.
Proof.
  unfold seat_count. destruct seat_val as [text|]; [|intros [= <-]; lia].
  destruct (Str.is_empty text); [intros [= <-]; lia|].
  destruct (parse_number_ok text) as (r & Hr).
  pose proof (parse_number_nonneg text) as Hpos.
  rewrite Hr. cbn [bind]. destruct r as [x|]; [|intros [= <-]; lia].
  destruct (Float.truthy x); [|intros [= <-]; lia].
  pose proof (to_int_nonneg x (Hpos x Hr)) as Hx.
  intros H. rewrite H in Hx. exact Hx.
Qed.

(** X16.  An extraction that succeeds returns a range and a cruise speed
    above zero, and a seat count that is not negative as long as the
    profile's default seat count, if any, is not negative. *)
Theorem extraction_metrics (plane : AircraftSpec) (html : Document)
    (seats : Z) (range_km cruise : float) (extras : gmap string value) :
  extract_table_spec plane html = Ok (seats, range_km, cruise, extras)
  \/ extract_list_spec plane html = Ok (seats, range_km, cruise, extras) ->
  positive_float range_km
  /\ positive_float cruise
  /\ ((forall d, default_seats plane = Some d -> 0 <= d) -> 0 <= seats).
Proof.
  intros [H|H].
  - apply extract_table_spec_Ok in H. destruct H as (_ & t & _ & _ & _ & H).
    pose proof (try_table_accept _ _ _ _ _ _ H) as Hacc.
    apply accept_spec in Hacc. destruct Hacc as (_ & Hr & Hc).
    pose proof (try_table_column _ _ _ _ _ _ H)
      as (column & range_val & cruise_val & rng & spd
          & _ & _ & _ & Hrng & -> & _ & Hspd & ->).
    split; [|split].
    + apply nonneg_nonzero_positive; [|exact Hr]. apply or_zero_nonneg.
      intros v ->. exact (parse_distance_nonneg range_val v Hrng).
    + apply nonneg_nonzero_positive; [|exact Hc]. apply or_zero_nonneg.
      intros v ->.
      exact (parse_speed_nonneg cruise_val v Hspd).
    + intros Hd. apply try_table_seats in H.
      destruct H as (col & seat_val & n & _ & Hn & ->).
      apply seat_count_nonneg in Hn.
      destruct (default_seats plane) as [d|]; [|exact Hn].
      destruct (n =? 0); [apply Hd; reflexivity|exact Hn].
  - unfold extract_list_spec in H.
    inv_bind H. inv_bind H. inv_bind H. inv_bind H.
    destruct a0 as [r|]; [|discriminate]. destruct a1 as [c|]; [|discriminate].
    inv_bind H. inv_bind H. simplify_eq.
    pose proof (extract_li_value_truthy _ _ _ _ _ Ha0) as Hr.
    pose proof (extract_li_value_truthy _ _ _ _ _ Ha1) as Hc.
    apply truthy_eqb in Hr, Hc.
    apply extract_li_value_Some in Ha0, Ha1.
    destruct Ha0 as (_ & k0 & _ & _ & i0 & _ & _ & _ & _ & _ & Hs0).
    destruct Ha1 as (_ & k1 & _ & _ & i1 & _ & _ & _ & _ & _ & Hs1).
    apply li_step_Some in Hs0, Hs1.
    destruct Hs0 as (_ & _ & Hp0 & _). destruct Hs1 as (_ & _ & Hp1 & _).
    split; [|split].
    + apply nonneg_nonzero_positive; [|exact Hr].
      exact (parse_distance_nonneg _ _ Hp0).
    + apply nonneg_nonzero_positive; [|exact Hc].
      exact (parse_speed_nonneg _ _ Hp1).
    + intros Hd. destruct a as [x|].
      * simplify_eq.
        apply extract_li_value_Some in Ha.
        destruct Ha as (_ & k & _ & _ & i & _ & _ & _ & _ & _ & Hs).
        apply li_step_Some in Hs. destruct Hs as (_ & _ & Hp & _).
        pose proof (to_int_nonneg x (parse_number_nonneg _ x Hp)) as Hx.
        rewrite Ha4 in Hx. exact Hx.
      * destruct (default_seats plane) as [d|] eqn:Hdef; [|discriminate].
        simplify_eq. apply Hd. reflexivity.
Qed.

Lemma extraction_metrics_witness :
  positive_float (Float.mul (Float.of_Z 2935) (dec 1852 3))
  /\ positive_float (Float.mul (dec 785 3) (Float.of_Z 1225))
  /\ ((forall d, default_seats b738 = Some d -> 0 <= d) -> 0 <= 189).
Proof.
  apply (extraction_metrics b738 b738_page 189 _ _
           (value_or ∅ (collect_list_fields (build_list_items b738_page)))).
  right. vm_refl.
Defined.
